(** * Depth-interval resolution and Munsell colour lookup of the export app

    A shallow embedding of [apps/export/depth_helpers.py] and of the
    pure parts of [apps/export/fetch_data.py], with the properties the
    specification states about them.

    The Python code works on the nested mappings a GraphQL query
    returns.  They are embedded as a small universe of JSON-like values;
    every operation that can raise in Python returns a [result]. *)

From Stdlib Require Import ZArith QArith Qround List Lia Lqa Permutation Sorted.
From stdpp Require Import base option strings pretty gmap.

#[local] Set Warnings "-register-all".

Local Open Scope string_scope.
Local Open Scope list_scope.
Local Open Scope Z_scope.

(** ** Values *)

(** The values found in a decoded GraphQL answer.  A [dict] keeps its
    bindings in insertion order; [lookup] takes the first binding of a
    key.  A Python [float] is embedded as the rational it denotes (the
    values [nan] and [inf] have no counterpart), and float operations
    as the exact operations on rationals. *)
Inductive value : Type :=
| VNone
| VBool (b : bool)
| VInt (n : Z)
| VFloat (q : Q)
| VStr (s : string)
| VList (l : list value)
| VDict (d : list (string * value)).

(** The exceptions of the embedded code.  [Unmodelled] is not a Python
    exception: it marks a use of a builtin on a type of operand this
    development does not describe (Python may succeed or raise there). *)
Inductive exn : Type :=
| AttributeError
| TypeError
| IndexError
| RuntimeError (errors : value)
| ValueError
| Unmodelled.

Inductive result (A : Type) : Type :=
| Ok (a : A)
| Raise (e : exn).

Arguments Ok {A} a.
Arguments Raise {A} e.

Definition bind {A B : Type} (r : result A) (k : A -> result B) : result B :=
  match r with
  | Ok a => k a
  | Raise e => Raise e
  end.

Notation "'let*' x ':=' r 'in' k" := (bind r (fun x => k))
  (at level 10, x name, r at level 100, k at level 200, only parsing).

Fixpoint mapM {A B : Type} (f : A -> result B) (l : list A) : result (list B) :=
  match l with
  | [] => Ok []
  | a :: l' => let* b := f a in let* bs := mapM f l' in Ok (b :: bs)
  end.

(** ** Builtins *)

Fixpoint assoc (k : string) (d : list (string * value)) : option value :=
  match d with
  | [] => None
  | (k', v) :: d' => if String.eqb k k' then Some v else assoc k d'
  end.

(** [d.get(k, default)]; anything but a dict has no attribute [get]. *)
Definition get (d : value) (k : string) (default : value) : result value :=
  match d with
  | VDict kv => Ok (match assoc k kv with Some v => v | None => default end)
  | _ => Raise AttributeError
  end.

Definition Qzero (q : Q) : bool := Qeq_bool q 0.

(** Truth value testing. *)
Definition truthy (v : value) : bool :=
  match v with
  | VNone => false
  | VBool b => b
  | VInt n => negb (n =? 0)
  | VFloat q => negb (Qzero q)
  | VStr s => negb (String.eqb s "")
  | VList l => match l with [] => false | _ => true end
  | VDict d => match d with [] => false | _ => true end
  end.

(** [a or b] *)
Definition py_or (a b : value) : value := if truthy a then a else b.

(** [v == s] for a string constant [s]. *)
Definition eq_str (v : value) (s : string) : bool :=
  match v with
  | VStr s' => String.eqb s' s
  | _ => false
  end.

Definition is_none (v : value) : bool :=
  match v with VNone => true | _ => false end.

(** The number a numeric value denotes ([True] is [1], [False] is [0]). *)
Definition num_of (v : value) : option Q :=
  match v with
  | VBool b => Some (if b then 1%Q else 0%Q)
  | VInt n => Some (inject_Z n)
  | VFloat q => Some q
  | _ => None
  end.

(** [for x in v]: a list yields its elements and [None] and numbers are
    not iterable; the iteration of a [str] or a [dict] is not described. *)
Definition py_iter (v : value) : result (list value) :=
  match v with
  | VList l => Ok l
  | VStr _ | VDict _ => Raise Unmodelled
  | _ => Raise TypeError
  end.

(** ** [depth_helpers.py] *)

(** Modelled from the spec: the values of the enum [DepthIntervalPreset]
    of [apps.soil_id.models.project_soil_settings], which is not among
    the sources; the four tags are those the specification and the
    docstring of [get_effective_preset] name. *)
Definition PRESET_NRCS : string := "NRCS".
Definition PRESET_BLM : string := "BLM".
Definition PRESET_CUSTOM : string := "CUSTOM".
Definition PRESET_NONE : string := "NONE".

(** [depth_key]: the [(start, end)] pair of an interval. *)
Definition depth_key (interval : value) : result (value * value) :=
  let* di := get interval "depthInterval" (VDict []) in
  let* s := get di "start" VNone in
  let* e := get di "end" VNone in
  Ok (s, e).

Definition get_effective_preset (site : value) : result value :=
  let* project := get site "project" VNone in
  if truthy project then
    let* ss := get project "soilSettings" VNone in
    let* p := get (py_or ss (VDict [])) "depthIntervalPreset" VNone in
    Ok (py_or p (VStr PRESET_NONE))
  else
    let* soil_data := get site "soilData" (VDict []) in
    let* preset := get soil_data "depthIntervalPreset" VNone in
    Ok (if eq_str preset PRESET_CUSTOM then VStr PRESET_NONE
        else py_or preset (VStr PRESET_NONE)).

(** *** Stable sorting

    [list.sort(key=...)] computes the key of every element first and
    then sorts stably.  Insertion sort that puts an element before the
    first one whose key is not smaller is the stable sort. *)

Fixpoint insert_by {A : Type} (x : Q * A) (l : list (Q * A)) : list (Q * A) :=
  match l with
  | [] => [x]
  | y :: l' => if Qle_bool (fst x) (fst y) then x :: y :: l'
               else y :: insert_by x l'
  end.

Fixpoint isort_by {A : Type} (l : list (Q * A)) : list (Q * A) :=
  match l with
  | [] => []
  | x :: l' => insert_by x (isort_by l')
  end.

Definition numeric_key {A : Type} (ka : value * A) : result (Q * A) :=
  match num_of (fst ka) with
  | Some q => Ok (q, snd ka)
  | None => Raise Unmodelled
  end.

(** Sorting a list whose keys are already computed.  With at most one
    element no two keys are compared; otherwise the keys are compared as
    numbers (keys of another type are not described). *)
Definition py_sort {A : Type} (keyed : list (value * A)) : result (list A) :=
  match keyed with
  | [] | [_] => Ok (map snd keyed)
  | _ => let* nk := mapM numeric_key keyed in Ok (map snd (isort_by nk))
  end.

Section Presets.

(** The tables [NRCSIntervalDefaults] and [BLMIntervalDefaults] of
    [apps.soil_id.models.project_soil_settings] are not among the
    sources: they are parameters, each row given by its
    [depth_interval_start] and [depth_interval_end]. *)
Variable NRCSIntervalDefaults : list (Z * Z).
Variable BLMIntervalDefaults : list (Z * Z).

Definition _build_depth_intervals (interval_defaults : list (Z * Z)) : list value :=
  map (fun d =>
         VDict [("label", VStr (pretty (fst d) +:+ "-" +:+ pretty (snd d) +:+ " cm"));
                ("depthInterval", VDict [("start", VInt (fst d));
                                         ("end", VInt (snd d))])])
      interval_defaults.

Definition NRCS_DEPTH_INTERVALS : list value :=
  _build_depth_intervals NRCSIntervalDefaults.
Definition BLM_DEPTH_INTERVALS : list value :=
  _build_depth_intervals BLMIntervalDefaults.

(** [site=None] is the default of the second argument. *)
Definition get_preset_intervals (preset site : value) : result value :=
  if eq_str preset PRESET_NRCS then Ok (VList NRCS_DEPTH_INTERVALS)
  else if eq_str preset PRESET_BLM then Ok (VList BLM_DEPTH_INTERVALS)
  else if eq_str preset PRESET_CUSTOM && truthy site then
    let* project := get site "project" VNone in
    let* ss := get project "soilSettings" VNone in
    get (py_or ss (VDict [])) "depthIntervals" (VList [])
  else Ok (VList []).

(** The key of the final sort: [depth_key(x[0])[0] or 0]. *)
Definition sort_key (x : value * value) : result (value * (value * value)) :=
  let* k := depth_key (fst x) in Ok (py_or (fst k) (VInt 0), x).

Definition get_visible_intervals (site : value) : result (list (value * value)) :=
  let* effective_preset := get_effective_preset site in
  let* preset_intervals := get_preset_intervals effective_preset site in
  let* pis := py_iter preset_intervals in
  let* soil_data := get site "soilData" (VDict []) in
  let* site_intervals := get soil_data "depthIntervals" (VList []) in
  let* sis := py_iter site_intervals in
  let* keyed := mapM sort_key
                   (map (fun i => (i, effective_preset)) pis
                    ++ map (fun i => (i, VStr PRESET_CUSTOM)) sis) in
  py_sort keyed.

End Presets.

(** ** [fetch_data.py]: the Munsell to CIELAB lookup *)

(** The lookup table, keyed by [(hue_string, value_int, chroma_int)],
    with the [(L, A, B)] triple of each colour. *)
Abbreviation lab_table := (gmap (string * Z * Z) (Q * Q * Q)).

Definition _HUE_NAMES : list string :=
  ["R"; "YR"; "Y"; "GY"; "G"; "BG"; "B"; "PB"; "P"; "RP"].

(** [round(x)] of a float: to the nearest integer, a tie to the even one. *)
Definition round_half_even (q : Q) : Z :=
  let f := Qfloor q in
  match Qcompare (q - inject_Z f) (1 # 2) with
  | Lt => f
  | Gt => f + 1
  | Eq => if Z.even f then f else f + 1
  end.

(** [round(v)]: an [int] is its own rounding; what is not a number has
    no [__round__]. *)
Definition py_round (v : value) : result Z :=
  match v with
  | VBool b => Ok (Z.b2z b)
  | VInt n => Ok n
  | VFloat q => Ok (round_half_even q)
  | _ => Raise TypeError
  end.

(** The operand of [hue // 10] and [hue % 10] as a number. *)
Definition py_number (v : value) : result Q :=
  match num_of v with
  | Some q => Ok q
  | None => Raise TypeError
  end.

(** [x // 10] and [x % 10]: floored division and its remainder.  They
    are what Python computes on an [int] and on a float that is not
    negative; the remainder of a negative float is rounded by Python
    (to [fmod(x, 10) + 10]), which the exact remainder does not show. *)
Definition floordiv10 (x : Q) : Z := Qfloor (x / 10).
Definition mod10 (x : Q) : Q := (x - 10 * inject_Z (floordiv10 x))%Q.

(** [l[i]], where a negative index counts from the end. *)
Definition py_index {A : Type} (l : list A) (i : Z) : result A :=
  let n := Z.of_nat (length l) in
  let j := if i <? 0 then i + n else i in
  if (0 <=? j) && (j <? n) then
    match nth_error l (Z.to_nat j) with
    | Some a => Ok a
    | None => Raise IndexError
    end
  else Raise IndexError.

(** [f"{x:g}"] for [x = n / 2]: the integer part, followed by [.5] when
    [n] is odd (this is what the format gives for [0 <= x < 100000];
    here [x] is one of [2.5], [5], [7.5] and [10]). *)
Definition format_g_halves (n : Z) : string :=
  if Z.even n then pretty (n / 2) else pretty (n / 2) +:+ ".5".

Definition table_empty (table : lab_table) : bool :=
  bool_decide (size table = 0%nat).

(** The decoding of [colorHue] (0-100, continuous) to a Munsell hue
    string: the lines of [munsell_to_lab] from [hue = color_hue] to the
    assignment of [hue_str]. *)
Definition hue_string (color_hue : value) : result string :=
  let* hue := py_number color_hue in
  let hue := if Qeq_bool hue 100 then 0%Q else hue in
  let hue_index := floordiv10 hue in
  let substep := round_half_even (mod10 hue / (5 # 2)) in
  let hue_index := if substep =? 0 then (hue_index + 9) mod 10 else hue_index in
  let substep := if substep =? 0 then 4 else substep in
  let* name := py_index _HUE_NAMES hue_index in
  Ok (format_g_halves (substep * 5) +:+ name).

(** [munsell_to_lab], with the table [_load_munsell_lab_table()] returns
    as first argument. *)
Definition munsell_to_lab (table : lab_table)
    (color_hue color_value color_chroma : value) : result (option (Q * Q * Q)) :=
  if table_empty table then Ok None
  else
    let* chroma := py_round color_chroma in
    let* value := py_round color_value in
    if chroma =? 0 then Ok (table !! ("N", value, 0))
    else
      let* hue_str := hue_string color_hue in
      Ok (table !! (hue_str, value, chroma)).

(** ** [fetch_data.py]: the data handed to the soil matching query *)

(** [str(v)] of a site identifier; the [repr] of floats and containers
    is not described. *)
Definition py_str (v : value) : result string :=
  match v with
  | VStr s => Ok s
  | VInt n => Ok (pretty n)
  | VBool b => Ok (if b then "True" else "False")
  | VNone => Ok "None"
  | _ => Raise Unmodelled
  end.

(** Keys of the set [visible_keys]: a tuple is hashable when its
    components are, and two keys are the same element when their
    components are equal ([1 == 1.0 == True]). *)
Definition hashable (v : value) : bool :=
  match v with
  | VList _ | VDict _ => false
  | _ => true
  end.

Definition atom_eqb (a b : value) : bool :=
  match num_of a, num_of b with
  | Some x, Some y => Qeq_bool x y
  | None, None =>
      match a, b with
      | VNone, VNone => true
      | VStr s, VStr t => String.eqb s t
      | _, _ => false
      end
  | _, _ => false
  end.

Definition key_eqb (k1 k2 : value * value) : bool :=
  atom_eqb (fst k1) (fst k2) && atom_eqb (snd k1) (snd k2).

Definition hash_key (k : value * value) : result (value * value) :=
  if hashable (fst k) && hashable (snd k) then Ok k else Raise TypeError.

(** [k in keys] *)
Definition key_in (k : value * value) (keys : list (value * value)) : result bool :=
  let* k := hash_key k in Ok (existsb (key_eqb k) keys).

(** The body of the loop over the measurements, for a measurement that
    is kept: the construction of [depth_entry]. *)
Definition depth_entry (table : lab_table) (measurement : value) : result value :=
  let* di := get measurement "depthInterval" (VDict []) in
  let* s := get di "start" VNone in
  let* e := get di "end" VNone in
  let entry := [("depthInterval", VDict [("start", s); ("end", e)])] in
  let* texture := get measurement "texture" VNone in
  let entry := if truthy texture then entry ++ [("texture", texture)] else entry in
  let* rfv := get measurement "rockFragmentVolume" VNone in
  let entry := if truthy rfv then entry ++ [("rockFragmentVolume", rfv)] else entry in
  let* hue := get measurement "colorHue" VNone in
  let* val := get measurement "colorValue" VNone in
  let* chroma := get measurement "colorChroma" VNone in
  if negb (is_none hue) && negb (is_none val) && negb (is_none chroma) then
    let* lab := munsell_to_lab table hue val chroma in
    match lab with
    | Some (l, a, b) =>
        Ok (VDict (entry ++ [("colorLAB", VDict [("L", VFloat l);
                                                 ("A", VFloat a);
                                                 ("B", VFloat b)])]))
    | None => Ok (VDict entry)
    end
  else Ok (VDict entry).

(** The loop [for measurement in measurements]. *)
Fixpoint depth_dependent_data (table : lab_table) (visible_keys : list (value * value))
    (measurements : list value) : result (list value) :=
  match measurements with
  | [] => Ok []
  | measurement :: rest =>
      let* k := depth_key measurement in
      let* visible := key_in k visible_keys in
      if negb visible then depth_dependent_data table visible_keys rest
      else
        let* entry := depth_entry table measurement in
        let* entries := depth_dependent_data table visible_keys rest in
        Ok (entry :: entries)
  end.

(** What the module reads besides its arguments: the cache and its
    switch, the lookup table as loaded, and the GraphQL executor, which
    maps the [variable_values] of the soil matching query to the
    [errors] and the [data] of its answer. *)
Record world : Type := {
  _USE_SOIL_ID_CACHE : bool;
  _soil_id_cache : gmap string value;
  _munsell_lab_table : lab_table;
  schema_execute : value -> value * value
}.

Section FetchSoilId.

Variable NRCSIntervalDefaults : list (Z * Z).
Variable BLMIntervalDefaults : list (Z * Z).

(** [site_id and str(site_id) in _soil_id_cache], under the switch. *)
Definition cache_hit (w : world) (site_id : value) : result (option value) :=
  if _USE_SOIL_ID_CACHE w && truthy site_id then
    let* key := py_str site_id in Ok (_soil_id_cache w !! key)
  else Ok None.

Definition missing_coordinates : value :=
  VDict [("error", VStr "Site missing latitude or longitude")].

(** [fetch_soil_id] up to the soil matching query: either the value it
    returns without a query ([inl]: the cached answer or the error
    mapping), or the [variable_values] of the query ([inr]). *)
Definition soil_id_request (w : world) (site : value) : result (value + value) :=
  let* site_id := get site "id" VNone in
  let* cached := cache_hit w site_id in
  match cached with
  | Some answer => Ok (inl answer)
  | None =>
      let* latitude := get site "latitude" VNone in
      let* longitude := get site "longitude" VNone in
      if negb (truthy latitude) || negb (truthy longitude) then
        Ok (inl missing_coordinates)
      else
        let* soil_data := get site "soilData" (VDict []) in
        let* slope := get soil_data "slopeSteepnessDegree" VNone in
        let* cracks := get soil_data "surfaceCracksSelect" (VStr "NO_CRACKING") in
        let* visible := get_visible_intervals NRCSIntervalDefaults BLMIntervalDefaults site in
        let* visible_keys :=
          mapM (fun x => let* k := depth_key (fst x) in hash_key k) visible in
        let* measurements := get soil_data "depthDependentData" (VList []) in
        let* ms := py_iter measurements in
        let* entries := depth_dependent_data (_munsell_lab_table w) visible_keys ms in
        let data := VDict [("slope", slope);
                           ("surfaceCracks", cracks);
                           ("depthDependentData", VList entries)] in
        Ok (inr (VDict [("latitude", latitude);
                        ("longitude", longitude);
                        ("data", data)]))
  end.

(** [fetch_soil_id]: the value returned or the exception raised, and
    the [variable_values] of the queries the executor was asked. *)
Definition fetch_soil_id (w : world) (site : value) : result value * list value :=
  match soil_id_request w site with
  | Raise e => (Raise e, [])
  | Ok (inl answer) => (Ok answer, [])
  | Ok (inr variables) =>
      let res := schema_execute w variables in
      (if truthy (fst res) then Raise (RuntimeError (fst res)) else Ok (snd res),
       [variables])
  end.

End FetchSoilId.

(** ** Vocabulary of the statements *)

(** [d.get(k)]: the value bound to [k], [None] when there is none. *)
Definition field (d : list (string * value)) (k : string) : value :=
  match assoc k d with
  | Some v => v
  | None => VNone
  end.

Definition is_number (v : value) : bool :=
  match num_of v with Some _ => true | None => false end.

(** The [(start, end)] identity of an interval or of a measurement;
    a missing component is [None]. *)
Definition key_of (i : value) : value * value :=
  match i with
  | VDict d =>
      match assoc "depthInterval" d with
      | Some (VDict di) => (field di "start", field di "end")
      | _ => (VNone, VNone)
      end
  | _ => (VNone, VNone)
  end.

(** A mapping whose [depthInterval], when it has one, is a mapping. *)
Definition has_depth_interval (i : value) : bool :=
  match i with
  | VDict d =>
      match assoc "depthInterval" d with
      | None | Some (VDict _) => true
      | _ => false
      end
  | _ => false
  end.

(** An interval whose start depth is a number or is missing. *)
Definition interval_ok (i : value) : bool :=
  has_depth_interval i
  && (is_none (fst (key_of i)) || is_number (fst (key_of i))).

(** The start depth by which intervals are ordered: a missing start
    counts as [0]. *)
Definition start_depth (i : value) : Q :=
  match num_of (fst (key_of i)) with
  | Some q => q
  | None => 0%Q
  end.

(** An interval list that is missing or is a list of intervals. *)
Definition intervals_ok (v : option value) : bool :=
  match v with
  | None => true
  | Some (VList l) => forallb interval_ok l
  | _ => false
  end.

(** The shape of a site record as far as the depth-interval resolver
    reads it: the project is missing or a mapping, whose soil settings
    are missing or a mapping; the soil data are a mapping when there;
    the interval lists are lists of intervals. *)
Definition site_ok (site : value) : bool :=
  match site with
  | VDict d =>
      match assoc "project" d with
      | None | Some VNone => true
      | Some (VDict p) =>
          match assoc "soilSettings" p with
          | None | Some VNone => true
          | Some (VDict ss) => intervals_ok (assoc "depthIntervals" ss)
          | _ => false
          end
      | _ => false
      end
      && match assoc "soilData" d with
         | None => true
         | Some (VDict sd) => intervals_ok (assoc "depthIntervals" sd)
         | _ => false
         end
  | _ => false
  end.

(** The site's own custom interval list. *)
Definition site_custom_intervals (site : value) : list value :=
  match site with
  | VDict d =>
      match assoc "soilData" d with
      | Some (VDict sd) =>
          match assoc "depthIntervals" sd with
          | Some (VList l) => l
          | _ => []
          end
      | _ => []
      end
  | _ => []
  end.

(** A hue in the range [0, 100] of the application's encoding. *)
Definition hue_in_range (h : value) : bool :=
  match num_of h with
  | Some q => Qle_bool 0 q && Qle_bool q 100
  | None => false
  end.

(** A measurement as the assembler reads it: a mapping with a hashable
    [(start, end)] key whose colour, when all three channels are there,
    is made of numbers with the hue in range. *)
Definition measurement_ok (m : value) : bool :=
  match m with
  | VDict d =>
      has_depth_interval m
      && hashable (fst (key_of m)) && hashable (snd (key_of m))
      && (is_none (field d "colorHue") || is_none (field d "colorValue")
          || is_none (field d "colorChroma")
          || (hue_in_range (field d "colorHue") && is_number (field d "colorValue")
              && is_number (field d "colorChroma")))
  | _ => false
  end.

(** Membership of a measurement's key in a set of keys. *)
Definition visible_measurement (keys : list (value * value)) (m : value) : bool :=
  existsb (key_eqb (key_of m)) keys.

(** The project's custom interval list,
    [site.project.soilSettings.depthIntervals], empty when a part of
    the path is missing. *)
Definition project_custom_intervals (site : value) : list value :=
  match site with
  | VDict d =>
      match assoc "project" d with
      | Some (VDict p) =>
          match assoc "soilSettings" p with
          | Some (VDict ss) =>
              match assoc "depthIntervals" ss with
              | Some (VList l) => l
              | _ => []
              end
          | _ => []
          end
      | _ => []
      end
  | _ => []
  end.

(** [presetIntervals] in the specification's words: the fixed list for
    [NRCS] and [BLM], the project's custom list for [CUSTOM], nothing
    for [NONE] and for any other value. *)
Definition presetIntervals (NRCS BLM : list (Z * Z)) (preset site : value) : list value :=
  if eq_str preset PRESET_NRCS then NRCS_DEPTH_INTERVALS NRCS
  else if eq_str preset PRESET_BLM then BLM_DEPTH_INTERVALS BLM
  else if eq_str preset PRESET_CUSTOM then project_custom_intervals site
  else [].

(** A site from which the [CUSTOM] branch can read: it has a project
    mapping, whose soil settings are missing or a mapping whose
    [depthIntervals] are missing or a list. *)
Definition custom_source_ok (site : value) : bool :=
  match site with
  | VDict d =>
      match assoc "project" d with
      | Some (VDict p) =>
          match assoc "soilSettings" p with
          | None | Some VNone => true
          | Some (VDict ss) =>
              match assoc "depthIntervals" ss with
              | None | Some (VList _) => true
              | _ => false
              end
          | _ => false
          end
      | _ => false
      end
  | _ => false
  end.

(** Stable sorting by a key function: the reference against which the
    sort of [get_visible_intervals] is stated. *)
Section SortByKey.

Context {A : Type} (key : A -> Q).

Fixpoint insert_key (x : A) (l : list A) : list A :=
  match l with
  | [] => [x]
  | y :: l' => if Qle_bool (key x) (key y) then x :: y :: l'
               else y :: insert_key x l'
  end.

Fixpoint isort_key (l : list A) : list A :=
  match l with
  | [] => []
  | x :: l' => insert_key x (isort_key l')
  end.

Definition key_le (a b : A) : Prop := (key a <= key b)%Q.

(** Each element paired with its key. *)
Definition decorate (l : list A) : list (Q * A) :=
  map (fun x => (key x, x)) l.

End SortByKey.

(** The combined list [get_visible_intervals] sorts: the preset's
    intervals under the effective preset's tag, then the site's own
    under the tag [CUSTOM]. *)
Definition tagged_intervals (eff : value) (pis sis : list value) : list (value * value) :=
  map (fun i => (i, eff)) pis ++ map (fun i => (i, VStr PRESET_CUSTOM)) sis.

(** The order of the sort: by start depth. *)
Definition by_start (x : value * value) : Q := start_depth (fst x).

(** The key the code computes for an interval with a numeric or
    missing start: the number [start or 0] denotes. *)
Definition computed_key (x : value * value) : Q :=
  match num_of (py_or (fst (key_of (fst x))) (VInt 0)) with
  | Some q => q
  | None => 0%Q
  end.

(** The colour attached to a measurement: the converter's result when
    all three channels are there and it has one. *)
Definition colour_lab (table : lab_table) (d : list (string * value)) : option (Q * Q * Q) :=
  if is_none (field d "colorHue") || is_none (field d "colorValue")
     || is_none (field d "colorChroma")
  then None
  else match munsell_to_lab table (field d "colorHue") (field d "colorValue")
               (field d "colorChroma") with
       | Ok (Some lab) => Some lab
       | _ => None
       end.

Definition lab_dict (lab : Q * Q * Q) : value :=
  VDict [("L", VFloat (fst (fst lab))); ("A", VFloat (snd (fst lab)));
         ("B", VFloat (snd lab))].

(** The fields of the entry built for a measurement, in the order of
    their insertion. *)
Definition entry_fields (table : lab_table) (d : list (string * value)) : list (string * value) :=
  (([("depthInterval", VDict [("start", fst (key_of (VDict d)));
                              ("end", snd (key_of (VDict d)))])]
    ++ (if truthy (field d "texture") then [("texture", field d "texture")] else []))
   ++ (if truthy (field d "rockFragmentVolume")
       then [("rockFragmentVolume", field d "rockFragmentVolume")] else []))
  ++ match colour_lab table d with
     | Some lab => [("colorLAB", lab_dict lab)]
     | None => []
     end.

(** The measurement list of a site, [soilData.depthDependentData],
    empty when missing; no list when the path holds something else. *)
Definition site_measurements (site : value) : option (list value) :=
  match site with
  | VDict d =>
      match assoc "soilData" d with
      | None => Some []
      | Some (VDict sd) =>
          match assoc "depthDependentData" sd with
          | None => Some []
          | Some (VList l) => Some l
          | _ => None
          end
      | _ => None
      end
  | _ => None
  end.

Definition key_hashable (i : value) : bool :=
  hashable (fst (key_of i)) && hashable (snd (key_of i)).

(** A coordinate that is [None] or zero. *)
Definition none_or_zero (v : value) : bool :=
  match v with
  | VNone => true
  | _ => match num_of v with
         | Some q => Qzero q
         | None => false
         end
  end.

(** ** Sample data

    A site, a lookup table and a cache on which the statements below
    are instantiated.  The interval tables are sample rows, not the
    contents of the tables of the soil-id app. *)

Definition sample_nrcs : list (Z * Z) :=
  [(0, 5); (5, 15); (15, 30); (30, 60); (60, 100); (100, 200)].
Definition sample_blm : list (Z * Z) :=
  [(0, 1); (1, 10); (10, 20); (20, 50); (50, 70)].

Definition depth_interval (s e : Z) : string * value :=
  ("depthInterval", VDict [("start", VInt s); ("end", VInt e)]).

(** A site without project, with the [NRCS] preset, two custom
    intervals, one of them [0-5] as in the preset, and four measurements,
    one of them at a depth that is not visible. *)
Definition sample_fields : list (string * value) :=
  [("id", VStr "site-1");
   ("latitude", VFloat (3 # 2));
   ("longitude", VFloat (184 # 5));
   ("soilData",
    VDict [("slopeSteepnessDegree", VInt 12);
           ("depthIntervalPreset", VStr "NRCS");
           ("depthIntervals",
            VList [VDict [("label", VStr "top"); depth_interval 0 5];
                   VDict [("label", VStr "pit"); depth_interval 0 10]]);
           ("depthDependentData",
            VList [VDict [depth_interval 0 10;
                          ("texture", VNone);
                          ("rockFragmentVolume", VStr "VOLUME_1_15");
                          ("colorHue", VInt 0);
                          ("colorValue", VInt 0);
                          ("colorChroma", VInt 0)];
                   VDict [depth_interval 7 9;
                          ("texture", VStr "SAND")];
                   VDict [depth_interval 0 5;
                          ("texture", VStr "CLAY");
                          ("colorHue", VFloat (5 # 1));
                          ("colorValue", VFloat (5 # 1));
                          ("colorChroma", VFloat (1 # 1))];
                   VDict [depth_interval 5 15;
                          ("texture", VStr "LOAM");
                          ("colorHue", VInt 35);
                          ("colorValue", VInt 4);
                          ("colorChroma", VInt 2)]])]);
   ("project", VNone)].

Definition sample_site : value := VDict sample_fields.

(** The same site under a project whose preset is [CUSTOM]. *)
Definition sample_project_fields : list (string * value) :=
  [("project",
    VDict [("id", VStr "project-1");
           ("soilSettings",
            VDict [("depthIntervalPreset", VStr "CUSTOM");
                   ("depthIntervals",
                    VList [VDict [("label", VStr "a"); depth_interval 10 20]])])])]
  ++ sample_fields.

Definition sample_table : lab_table :=
  {[ ("5R", 5, 1) := (51 # 1, 5 # 1, 2 # 1)%Q;
     ("N", 0, 0) := (0 # 1, 0 # 1, 0 # 1)%Q ]}.

Definition sample_answer : value :=
  VDict [("soilId", VDict [("soilMatches", VDict [("matches", VList [])])])].

Definition sample_world : world :=
  {| _USE_SOIL_ID_CACHE := true;
     _soil_id_cache := ∅;
     _munsell_lab_table := sample_table;
     schema_execute := fun _ => (VNone, sample_answer) |}.

(** The world after [cache_soil_id("site-2", ...)]. *)
Definition sample_cached_world : world :=
  {| _USE_SOIL_ID_CACHE := true;
     _soil_id_cache := {[ "site-2" := sample_answer ]};
     _munsell_lab_table := sample_table;
     schema_execute := fun _ => (VNone, sample_answer) |}.

(** ** [fetch_data.py]: the cache of soil matching answers *)

(** [set_soil_id_cache_enabled]: the switch is only ever tested for
    truth, so its truth value is what is kept. *)
Definition set_soil_id_cache_enabled (w : world) (enabled : value) : world :=
  {| _USE_SOIL_ID_CACHE := truthy enabled;
     _soil_id_cache := _soil_id_cache w;
     _munsell_lab_table := _munsell_lab_table w;
     schema_execute := schema_execute w |}.

(** [cache_soil_id]: the world after the call. *)
Definition cache_soil_id (w : world) (site_id soil_id_data : value) : result world :=
  if _USE_SOIL_ID_CACHE w then
    let* key := py_str site_id in
    Ok {| _USE_SOIL_ID_CACHE := _USE_SOIL_ID_CACHE w;
          _soil_id_cache := <[key := soil_id_data]> (_soil_id_cache w);
          _munsell_lab_table := _munsell_lab_table w;
          schema_execute := schema_execute w |}
  else Ok w.

Definition clear_soil_id_cache (w : world) : world :=
  {| _USE_SOIL_ID_CACHE := _USE_SOIL_ID_CACHE w;
     _soil_id_cache := ∅;
     _munsell_lab_table := _munsell_lab_table w;
     schema_execute := schema_execute w |}.

(** ** [fetch_data.py]: the loading of the lookup table *)

(** A row of the data file as [csv.DictReader] yields it: the cells of
    the six columns, as text.  (Files without one of the columns, and
    rows shorter than the header, are not described.) *)
Record csv_row : Type := {
  row_hue : string;
  row_value : string;
  row_chroma : string;
  row_cielab_l : string;
  row_cielab_a : string;
  row_cielab_b : string
}.

(** What the loader reads: the path [soil_id.config] gives, when that
    module can be imported; the environment variable [DATA_PATH]; and
    the files there are, by path ([None]: [open] raises
    [FileNotFoundError]). *)
Record loader_env : Type := {
  MUNSELL_RGB_LAB_PATH : option string;
  DATA_PATH : option string;
  files : string -> option (list csv_row)
}.

(** [os.path.join(a, b)] for a relative [b]. *)
Definition path_join (a b : string) : string :=
  if String.eqb a "" then b
  else if String.eqb (String.substring (String.length a - 1) 1 a) "/" then a +:+ b
  else a +:+ "/" +:+ b.

Definition table_path (env : loader_env) : string :=
  match MUNSELL_RGB_LAB_PATH env with
  | Some path => path
  | None =>
      path_join (match DATA_PATH env with Some dir => dir | None => "Data" end)
        "LandPKS_munsell_rgb_lab.csv"
  end.

Section Loader.

(** The builtins [int] and [float] on text are parameters: what they
    return, or raise, for a cell. *)
Variable py_int : string -> result Z.
Variable py_float : string -> result Q.

(** The body of the loop over the rows: the key and the colour of a row. *)
Definition parse_row (row : csv_row) : result ((string * Z * Z) * (Q * Q * Q)) :=
  let hue := row_hue row in
  let* value := py_int (row_value row) in
  let* chroma := py_int (row_chroma row) in
  let* l := py_float (row_cielab_l row) in
  let* a := py_float (row_cielab_a row) in
  let* b := py_float (row_cielab_b row) in
  Ok ((hue, value, chroma), (l, a, b)).

(** The loop [for row in csv.DictReader(f)]. *)
Fixpoint load_rows (rows : list csv_row) (table : lab_table) : result lab_table :=
  match rows with
  | [] => Ok table
  | row :: rest =>
      let* entry := parse_row row in
      load_rows rest (<[fst entry := snd entry]> table)
  end.

(** [_load_munsell_lab_table], from the value of the global
    [_munsell_lab_table] ([None] before the first load): what the call
    returns or raises, the value of the global after it, and the paths
    it opened. *)
Definition _load_munsell_lab_table (env : loader_env) (global : option lab_table)
  : result lab_table * option lab_table * list string :=
  match global with
  | Some table => (Ok table, global, [])
  | None =>
      let path := table_path env in
      match files env path with
      | Some rows =>
          match load_rows rows ∅ with
          | Ok table => (Ok table, Some table, [path])
          | Raise e => (Raise e, None, [path])
          end
      | None => (Ok ∅, Some ∅, [path])
      end
  end.

(** [munsell_to_lab] as it is called: it loads the table first. *)
Definition munsell_to_lab_call (env : loader_env) (global : option lab_table)
    (color_hue color_value color_chroma : value)
  : result (option (Q * Q * Q)) * option lab_table * list string :=
  match _load_munsell_lab_table env global with
  | (Ok table, global', opened) =>
      (munsell_to_lab table color_hue color_value color_chroma, global', opened)
  | (Raise e, global', opened) => (Raise e, global', opened)
  end.

End Loader.

(** The last binding of a key in a list of entries. *)
Fixpoint last_binding {K V : Type} `{EqDecision K} (k : K) (l : list (K * V)) : option V :=
  match l with
  | [] => None
  | (k', v) :: rest =>
      match last_binding k rest with
      | Some v' => Some v'
      | None => if decide (k = k') then Some v else None
      end
  end.

(** ** [fetch_data.py]: the query for the notes of a site *)

(** The function subscripts the answer of the executor, so that it can
    raise [KeyError] besides the exceptions above. *)
Inductive failure : Type :=
| Py (e : exn)
| KeyError (key : string).

Inductive outcome (A : Type) : Type :=
| Returned (a : A)
| Failed (f : failure).

Arguments Returned {A} a.
Arguments Failed {A} f.

Definition and_then {A B : Type} (o : outcome A) (k : A -> outcome B) : outcome B :=
  match o with
  | Returned a => k a
  | Failed f => Failed f
  end.

Notation "'do*' x ':=' o 'in' k" := (and_then o (fun x => k))
  (at level 10, x name, o at level 100, k at level 200, only parsing).

Definition lift {A : Type} (r : result A) : outcome A :=
  match r with
  | Ok a => Returned a
  | Raise e => Failed (Py e)
  end.

(** [v[k]] for a string [k]: a mapping without the key raises
    [KeyError]; nothing else can be subscripted by a string. *)
Definition getitem (v : value) (k : string) : outcome value :=
  match v with
  | VDict d =>
      match assoc k d with
      | Some x => Returned x
      | None => Failed (KeyError k)
      end
  | _ => Failed (Py TypeError)
  end.

Fixpoint for_each {A B : Type} (f : A -> outcome B) (l : list A) : outcome (list B) :=
  match l with
  | [] => Returned []
  | a :: l' => do* b := f a in do* bs := for_each f l' in Returned (b :: bs)
  end.

(** One turn of the loop of [fetch_all_notes_for_site] on the [data] of
    an answer: the nodes of the page, and the cursor to go on from when
    there is a next page. *)
Definition notes_page (data : value) : outcome (list value * option value) :=
  do* site := getitem data "site" in
  do* conn := getitem site "notes" in
  do* edges := getitem conn "edges" in
  do* es := lift (py_iter edges) in
  do* nodes := for_each (fun e => getitem e "node") es in
  do* page_info := getitem conn "pageInfo" in
  do* has_next := getitem page_info "hasNextPage" in
  if negb (truthy has_next) then Returned (nodes, None)
  else
    do* page_info := getitem conn "pageInfo" in
    do* cursor := getitem page_info "endCursor" in
    Returned (nodes, Some cursor).

Definition notes_variables (site_id page_size after : value) : value :=
  VDict [("id", site_id); ("first", page_size); ("after", after)].

(** The loop [while True] of [fetch_all_notes_for_site], for at most
    [fuel] turns, from the cursor [after] and the notes collected so
    far: the outcome ([None] when the turns are used up) and the
    [variable_values] of the queries made. *)
Fixpoint notes_loop (fuel : nat) (execute : value -> value * value)
    (site_id page_size after : value) (notes : list value)
  : option (outcome (list value)) * list value :=
  match fuel with
  | O => (None, [])
  | S fuel' =>
      let variables := notes_variables site_id page_size after in
      let res := execute variables in
      if truthy (fst res) then (Some (Failed (Py (RuntimeError (fst res)))), [variables])
      else
        match notes_page (snd res) with
        | Failed f => (Some (Failed f), [variables])
        | Returned (nodes, None) => (Some (Returned (notes ++ nodes)), [variables])
        | Returned (nodes, Some cursor) =>
            let rest := notes_loop fuel' execute site_id page_size cursor (notes ++ nodes) in
            (fst rest, variables :: snd rest)
        end
  end.

Definition fetch_all_notes_for_site (fuel : nat) (execute : value -> value * value)
    (site_id page_size : value) : option (outcome (list value)) * list value :=
  notes_loop fuel execute site_id page_size VNone [].

(** An executor that serves the notes of a site in pages: from the
    cursor [after] it answers without errors, page after page, the
    last page being the one without a next page. *)
Inductive serves (execute : value -> value * value) (site_id page_size : value)
  : value -> list (list value) -> Prop :=
| serves_last (after : value) (errors data : value) (nodes : list value) :
    execute (notes_variables site_id page_size after) = (errors, data) ->
    truthy errors = false ->
    notes_page data = Returned (nodes, None) ->
    serves execute site_id page_size after [nodes]
| serves_next (after : value) (errors data : value) (nodes : list value)
    (cursor : value) (pages : list (list value)) :
    execute (notes_variables site_id page_size after) = (errors, data) ->
    truthy errors = false ->
    notes_page data = Returned (nodes, Some cursor) ->
    serves execute site_id page_size cursor pages ->
    serves execute site_id page_size after (nodes :: pages).

(** ** Vocabulary of the hue decoding *)

(** The hue of the [k]-th step of the [i]-th family in the
    application's encoding: [10 i + 2.5 k]. *)
Definition hue100 (i k : Z) : Q := (inject_Z (10 * i) + (5 # 2) * inject_Z k)%Q.

(** The notation of the [k]-th step of the [i]-th family. *)
Definition munsell_hue (i k : Z) : string :=
  format_g_halves (k * 5) +:+ nth (Z.to_nat i) _HUE_NAMES "".

(** The sub-step a hue is rounded to. *)
Definition substep_of (q : Q) : Z := round_half_even (mod10 q / (5 # 2)).

(** An executor whose [n]-th answer from the cursor [after] fails the
    loop of [fetch_all_notes_for_site], the answers before it being
    pages with a next page. *)
Inductive fails_at (execute : value -> value * value) (site_id page_size : value)
  : value -> nat -> failure -> Prop :=
| fails_errors (after : value) (errors data : value) :
    execute (notes_variables site_id page_size after) = (errors, data) ->
    truthy errors = true ->
    fails_at execute site_id page_size after 1 (Py (RuntimeError errors))
| fails_page (after : value) (errors data : value) (f : failure) :
    execute (notes_variables site_id page_size after) = (errors, data) ->
    truthy errors = false ->
    notes_page data = Failed f ->
    fails_at execute site_id page_size after 1 f
| fails_later (after : value) (errors data : value) (nodes : list value)
    (cursor : value) (n : nat) (f : failure) :
    execute (notes_variables site_id page_size after) = (errors, data) ->
    truthy errors = false ->
    notes_page data = Returned (nodes, Some cursor) ->
    fails_at execute site_id page_size cursor n f ->
    fails_at execute site_id page_size after (S n) f.

(** ** Sample data for the loader and for the notes *)

(** [int] and [float] on text.  A string of decimal digits is read as
    the number it writes.  [int] refuses with [ValueError] the empty
    string and every string with an ASCII letter; what the two do on
    other strings (signs, blanks, underscores, exponents) is left
    open. *)
Fixpoint digits_value (s : string) (acc : Z) : option Z :=
  match s with
  | EmptyString => Some acc
  | String c s' =>
      let n := Z.of_N (Ascii.N_of_ascii c) - 48 in
      if (0 <=? n) && (n <=? 9) then digits_value s' (10 * acc + n) else None
  end.

Fixpoint has_letter (s : string) : bool :=
  match s with
  | EmptyString => false
  | String c s' =>
      let n := Z.of_N (Ascii.N_of_ascii c) in
      ((65 <=? n) && (n <=? 90)) || ((97 <=? n) && (n <=? 122)) || has_letter s'
  end.

Definition sample_int (s : string) : result Z :=
  match s with
  | EmptyString => Raise ValueError
  | _ => match digits_value s 0 with
         | Some n => Ok n
         | None => if has_letter s then Raise ValueError else Raise Unmodelled
         end
  end.

Definition sample_float (s : string) : result Q :=
  match s with
  | EmptyString => Raise Unmodelled
  | _ => match digits_value s 0 with
         | Some n => Ok (inject_Z n)
         | None => Raise Unmodelled
         end
  end.

Definition sample_row (hue value chroma l a b : string) : csv_row :=
  {| row_hue := hue; row_value := value; row_chroma := chroma;
     row_cielab_l := l; row_cielab_a := a; row_cielab_b := b |}.

Definition sample_rows : list csv_row :=
  [sample_row "5R" "5" "1" "50" "4" "1";
   sample_row "N" "0" "0" "0" "0" "0";
   sample_row "5R" "5" "1" "51" "5" "2"].

(** An environment with the data file under [Data], and one without. *)
Definition sample_env : loader_env :=
  {| MUNSELL_RGB_LAB_PATH := None;
     DATA_PATH := None;
     files := fun path =>
                if String.eqb path "Data/LandPKS_munsell_rgb_lab.csv"
                then Some sample_rows else None |}.

Definition sample_env_without_file : loader_env :=
  {| MUNSELL_RGB_LAB_PATH := Some "/srv/soil-id/munsell.csv";
     DATA_PATH := None;
     files := fun _ => None |}.

(** An environment whose data file has a second row without a number
    for the value. *)
Definition sample_env_unreadable : loader_env :=
  {| MUNSELL_RGB_LAB_PATH := Some "m.csv";
     DATA_PATH := None;
     files := fun _ => Some [sample_row "5R" "5" "1" "51" "5" "2";
                             sample_row "5R" "five" "1" "51" "5" "2";
                             sample_row "N" "0" "0" "0" "0" "0"] |}.

Definition notes_answer (nodes : list value) (has_next : bool) (cursor : value) : value :=
  VDict [("site",
          VDict [("notes",
                  VDict [("pageInfo", VDict [("hasNextPage", VBool has_next);
                                             ("endCursor", cursor)]);
                         ("edges", VList (map (fun n => VDict [("node", n)]) nodes))])])].

(** An executor that serves three notes in two pages, and one whose
    second answer reports errors. *)
Definition sample_notes_execute (variables : value) : value * value :=
  match variables with
  | VDict [_; _; (_, VNone)] =>
      (VNone, notes_answer [VStr "note 1"; VStr "note 2"] true (VStr "c2"))
  | _ => (VNone, notes_answer [VStr "note 3"] false VNone)
  end.

Definition sample_failing_execute (variables : value) : value * value :=
  match variables with
  | VDict [_; _; (_, VNone)] =>
      (VNone, notes_answer [VStr "note 1"; VStr "note 2"] true (VStr "c2"))
  | _ => (VList [VStr "not allowed"], VNone)
  end.

(** * Properties *)

Lemma get_field (d : list (string * value)) (k : string) :
  get (VDict d) k VNone = Ok (field d k).
Proof. reflexivity. Qed.

Lemma truthy_dict (d : list (string * value)) :
  d <> [] -> truthy (VDict d) = true.
Proof. destruct d; [congruence | reflexivity]. Qed.

Lemma py_or_truthy (a b : value) : truthy a = true -> py_or a b = a.
Proof. unfold py_or. now intros ->. Qed.

Lemma eq_str_neq (s t : string) : s <> t -> eq_str (VStr s) t = false.
Proof. intros H. simpl. now apply String.eqb_neq. Qed.

(** C3: with a project the project's configured preset is the effective
    one, whatever the site's own soil data say, and [NONE] when the
    project has no soil settings or no preset; without a project the
    site's preset is, with [CUSTOM] and a missing preset read as [NONE]. *)
Theorem get_effective_preset_precedence (site : list (string * value)) :
  (forall p, field site "project" = VDict p -> p <> [] ->
     (forall ss v, field p "soilSettings" = VDict ss ->
        field ss "depthIntervalPreset" = v -> truthy v = true ->
        get_effective_preset (VDict site) = Ok v)
     /\ (field p "soilSettings" = VNone ->
         get_effective_preset (VDict site) = Ok (VStr PRESET_NONE))
     /\ (forall ss, field p "soilSettings" = VDict ss ->
         field ss "depthIntervalPreset" = VNone ->
         get_effective_preset (VDict site) = Ok (VStr PRESET_NONE)))
  /\ (field site "project" = VNone ->
      forall sd, get (VDict site) "soilData" (VDict []) = Ok (VDict sd) ->
        (field sd "depthIntervalPreset" = VStr PRESET_CUSTOM ->
         get_effective_preset (VDict site) = Ok (VStr PRESET_NONE))
        /\ (field sd "depthIntervalPreset" = VNone ->
            get_effective_preset (VDict site) = Ok (VStr PRESET_NONE))
        /\ (forall s, field sd "depthIntervalPreset" = VStr s ->
            s <> PRESET_CUSTOM -> s <> "" ->
            get_effective_preset (VDict site) = Ok (VStr s))).
Proof.
  split.
  - intros p Hp Hne.
    unfold get_effective_preset. rewrite get_field, Hp. cbn [bind].
    rewrite (truthy_dict p Hne), get_field.
    repeat split.
    + intros ss v Hss Hv Ht. rewrite Hss. cbn [bind].
      destruct ss as [|b ss'].
      * subst v. discriminate Ht.
      * rewrite py_or_truthy by reflexivity.
        rewrite get_field, Hv. cbn [bind].
        now rewrite py_or_truthy.
    + intros Hss. rewrite Hss. reflexivity.
    + intros ss Hss Hv. rewrite Hss. cbn [bind].
      destruct ss as [|b ss']; [reflexivity|].
      rewrite py_or_truthy by reflexivity.
      rewrite get_field, Hv. reflexivity.
  - intros Hp sd Hsd. unfold get_effective_preset.
    rewrite get_field, Hp. cbn [bind]. simpl truthy. cbv iota.
    rewrite Hsd. cbn [bind]. rewrite get_field. cbn [bind].
    repeat split.
    + intros ->. reflexivity.
    + intros ->. reflexivity.
    + intros s -> Hc He. rewrite eq_str_neq by assumption.
      unfold py_or. simpl. apply String.eqb_neq in He. now rewrite He.
Qed.

(** *** [get_preset_intervals] *)

Section PresetIntervals.

Variable NRCS : list (Z * Z).
Variable BLM : list (Z * Z).

Lemma get_preset_intervals_NRCS (site : value) :
  get_preset_intervals NRCS BLM (VStr PRESET_NRCS) site
  = Ok (VList (NRCS_DEPTH_INTERVALS NRCS)).
Proof. reflexivity. Qed.

Lemma get_preset_intervals_BLM (site : value) :
  get_preset_intervals NRCS BLM (VStr PRESET_BLM) site
  = Ok (VList (BLM_DEPTH_INTERVALS BLM)).
Proof. reflexivity. Qed.

Lemma get_preset_intervals_spec (preset site : value) :
  negb (eq_str preset PRESET_CUSTOM && truthy site) || custom_source_ok site = true ->
  get_preset_intervals NRCS BLM preset site
  = Ok (VList (presetIntervals NRCS BLM preset site)).
Proof.
  intros H. unfold get_preset_intervals, presetIntervals.
  destruct (eq_str preset PRESET_NRCS); [reflexivity|].
  destruct (eq_str preset PRESET_BLM); [reflexivity|].
  destruct (eq_str preset PRESET_CUSTOM); cbn [andb negb orb] in *; [|reflexivity].
  destruct (truthy site) eqn:Ht; cbn [negb orb] in H.
  - destruct site as [| | | | | |d]; try discriminate H.
    cbn [custom_source_ok project_custom_intervals] in *.
    rewrite get_field. unfold field. cbn [bind].
    destruct (assoc "project" d) as [[| | | | | |p]|]; try discriminate H.
    rewrite get_field. unfold field. cbn [bind].
    destruct (assoc "soilSettings" p) as [[| | | | | |ss]|]; try discriminate H;
      try reflexivity.
    destruct ss as [|b ss']; [reflexivity|].
    rewrite py_or_truthy by reflexivity. cbn [get].
    destruct (assoc "depthIntervals" (b :: ss')) as [[| | | | |l|]|];
      try discriminate H; reflexivity.
  - destruct site as [| | | | | |d]; try reflexivity.
    destruct d; [reflexivity | discriminate Ht].
Qed.

(** C2, as the code has it: [get_preset_intervals] returns the list the
    specification describes, without raising, for every preset and
    every site argument, provided that a non-empty site passed with the
    [CUSTOM] preset has a project. *)
Theorem get_preset_intervals_returns (preset site : value) :
  negb (eq_str preset PRESET_CUSTOM && truthy site) || custom_source_ok site = true ->
  get_preset_intervals NRCS BLM preset site
  = Ok (VList (presetIntervals NRCS BLM preset site)).
Proof. exact (get_preset_intervals_spec preset site). Qed.

End PresetIntervals.

(** C2, witness: the [CUSTOM] preset on a site whose project has soil
    settings without an interval list. *)
Lemma get_preset_intervals_returns_witness :
  get_preset_intervals [] [] (VStr "CUSTOM")
    (VDict [("project", VDict [("soilSettings",
                                VDict [("depthIntervalPreset", VStr "CUSTOM")])])])
  = Ok (VList []).
Proof.
  exact (get_preset_intervals_returns [] [] (VStr "CUSTOM")
           (VDict [("project", VDict [("soilSettings",
                                       VDict [("depthIntervalPreset", VStr "CUSTOM")])])])
           eq_refl).
Defined.

(** C2, counterexample: with the [CUSTOM] preset and a site that has no
    project, no list is returned: [project.get] is applied to [None]. *)
Lemma get_preset_intervals_custom_without_project :
  get_preset_intervals [] [] (VStr "CUSTOM")
    (VDict [("id", VStr "site-1"); ("project", VNone)])
  = Raise AttributeError
  /\ ~ (forall preset site, exists l,
          get_preset_intervals [] [] preset site = Ok (VList l)).
Proof.
  split; [reflexivity|].
  intros H.
  destruct (H (VStr "CUSTOM") (VDict [("id", VStr "site-1"); ("project", VNone)]))
    as [l Hl].
  discriminate Hl.
Qed.

(** *** [munsell_to_lab] *)

Lemma py_index_hue_names (i : Z) :
  0 <= i < 10 -> exists name, py_index _HUE_NAMES i = Ok name.
Proof.
  intros Hi.
  assert (H : i = 0 \/ i = 1 \/ i = 2 \/ i = 3 \/ i = 4 \/ i = 5 \/ i = 6 \/ i = 7
              \/ i = 8 \/ i = 9) by lia.
  repeat (destruct H as [-> | H]; [eexists; reflexivity|]).
  subst i. eexists; reflexivity.
Qed.

(** The family index of a hue of [[0, 100)] is an index of [_HUE_NAMES]. *)
Lemma floordiv10_range (x : Q) :
  (0 <= x)%Q -> (x < 100)%Q -> 0 <= floordiv10 x < 10.
Proof.
  destruct x as [n d]. unfold floordiv10, Qle, Qlt, Qfloor. cbn.
  intros H0 H1. rewrite Z.mul_1_r in *.
  split.
  - apply Z.div_pos; lia.
  - apply Z.div_lt_upper_bound; lia.
Qed.

Lemma hue_string_in_range (h : value) :
  hue_in_range h = true -> exists hs, hue_string h = Ok hs.
Proof.
  unfold hue_in_range, hue_string, py_number.
  destruct (num_of h) as [q|]; [|discriminate].
  intros H. apply andb_true_iff in H as [H0 H1].
  apply Qle_bool_iff in H0, H1. cbn [bind].
  set (hue := if Qeq_bool q 100 then 0%Q else q).
  assert (Hr : 0 <= floordiv10 hue < 10).
  { subst hue. destruct (Qeq_bool q 100) eqn:E.
    - apply floordiv10_range; [apply Qle_refl | reflexivity].
    - apply floordiv10_range; [assumption|].
      apply Qeq_bool_neq in E. apply Qle_lteq in H1 as [H1 | H1]; [assumption|].
      contradiction. }
  set (substep := round_half_even (mod10 hue / (5 # 2))).
  destruct (py_index_hue_names
              (if substep =? 0 then (floordiv10 hue + 9) mod 10 else floordiv10 hue))
    as [name Hname].
  { destruct (substep =? 0); [apply Z.mod_pos_bound; lia | assumption]. }
  rewrite Hname. eexists. reflexivity.
Qed.

Lemma table_empty_lookup (table : lab_table) (key : string * Z * Z) :
  table_empty table = true -> table !! key = None.
Proof.
  unfold table_empty. intros H. apply bool_decide_eq_true in H.
  apply map_size_empty_iff in H. subst table. apply lookup_empty.
Qed.

Lemma is_number_round (v : value) :
  is_number v = true -> exists z, py_round v = Ok z.
Proof. destruct v; try discriminate; intros _; eexists; reflexivity. Qed.

Lemma munsell_to_lab_empty (table : lab_table) (h v c : value) :
  table_empty table = true -> munsell_to_lab table h v c = Ok None.
Proof. intros H. unfold munsell_to_lab. now rewrite H. Qed.

(** With a hue in range and numbers for value and chroma the lookup is
    made, under the decoded hue string. *)
Lemma munsell_to_lab_total (table : lab_table) (h v c : value) :
  hue_in_range h = true -> is_number v = true -> is_number c = true ->
  exists hs vz cz,
    py_round v = Ok vz /\ py_round c = Ok cz
    /\ (if cz =? 0 then hs = "N" else hue_string h = Ok hs)
    /\ munsell_to_lab table h v c = Ok (table !! (hs, vz, cz)).
Proof.
  intros Hh Hv Hc.
  destruct (is_number_round v Hv) as [vz Hvz].
  destruct (is_number_round c Hc) as [cz Hcz].
  destruct (hue_string_in_range h Hh) as [hs Hhs].
  exists (if cz =? 0 then "N" else hs), vz, cz.
  split; [exact Hvz|]. split; [exact Hcz|]. split.
  - destruct (cz =? 0); [reflexivity | assumption].
  - unfold munsell_to_lab. destruct (table_empty table) eqn:He.
    + now rewrite table_empty_lookup.
    + rewrite Hcz, Hvz. cbn [bind]. destruct (cz =? 0) eqn:E.
      * apply Z.eqb_eq in E. now subst cz.
      * now rewrite Hhs.
Qed.

(** C1, as the code has it: for a chromatic colour, hue 5 is looked up
    under the hue string [5R] (hue 2.5 is what gives [2.5R]), and hue 0
    under [10RP], by the roll back to the preceding family. *)
Theorem hue_decoding_boundaries (table : lab_table) (v c : value) (vz cz : Z) :
  table_empty table = false ->
  py_round v = Ok vz -> py_round c = Ok cz -> cz <> 0 ->
  (hue_string (VInt 5) = Ok "5R"
   /\ munsell_to_lab table (VInt 5) v c = Ok (table !! ("5R", vz, cz)))
  /\ (hue_string (VFloat (5 # 2)) = Ok "2.5R"
      /\ munsell_to_lab table (VFloat (5 # 2)) v c = Ok (table !! ("2.5R", vz, cz)))
  /\ (hue_string (VInt 0) = Ok "10RP"
      /\ munsell_to_lab table (VInt 0) v c = Ok (table !! ("10RP", vz, cz))).
Proof.
  intros He Hv Hc Hz. apply Z.eqb_neq in Hz.
  assert (H : forall h hs, hue_string h = Ok hs ->
                hue_string h = Ok hs
                /\ munsell_to_lab table h v c = Ok (table !! (hs, vz, cz))).
  { intros h hs Hs. split; [assumption|].
    unfold munsell_to_lab. rewrite He, Hc, Hv. cbn [bind]. now rewrite Hz, Hs. }
  repeat split; apply H; vm_compute; reflexivity.
Qed.

(** C1, witness: value 5 and chroma 1 in a table that holds [5R 5/1]. *)
Lemma hue_decoding_boundaries_witness :
  munsell_to_lab {[ ("5R", 5, 1) := (51 # 1, 5 # 1, 2 # 1)%Q ]} (VInt 5) (VInt 5) (VInt 1)
  = Ok (({[ ("5R", 5, 1) := (51 # 1, 5 # 1, 2 # 1)%Q ]} : lab_table) !! ("5R", 5, 1)).
Proof.
  refine (proj2 (proj1 (hue_decoding_boundaries
                          {[ ("5R", 5, 1) := (51 # 1, 5 # 1, 2 # 1)%Q ]}
                          (VInt 5) (VInt 1) 5 1 _ eq_refl eq_refl _))).
  - vm_compute. reflexivity.
  - lia.
Defined.

(** C1, counterexample: hue 5 does not decode to [2.5R]; with value 5
    and chroma 1, the table's entry for [2.5R 5/1] is not found. *)
Lemma hue_5_is_not_2_5R :
  hue_string (VInt 5) <> Ok "2.5R"
  /\ ({[ ("2.5R", 5, 1) := (51 # 1, 5 # 1, 2 # 1)%Q ]} : lab_table) !! ("2.5R", 5, 1)
     = Some (51 # 1, 5 # 1, 2 # 1)%Q
  /\ munsell_to_lab {[ ("2.5R", 5, 1) := (51 # 1, 5 # 1, 2 # 1)%Q ]}
       (VInt 5) (VInt 5) (VInt 1) = Ok None.
Proof.
  split; [vm_compute; discriminate|].
  split; vm_compute; reflexivity.
Qed.

(** C6: when the chroma is 0 the hue plays no part: any two hues give
    the same result, which is the table's neutral entry for the rounded
    value; so do hue 0 and hue 100 with value 5. *)
Theorem neutral_hue_irrelevant (table : lab_table) (c : value) :
  py_round c = Ok 0 ->
  (forall h1 h2 v, munsell_to_lab table h1 v c = munsell_to_lab table h2 v c)
  /\ (forall h v vz, table_empty table = false -> py_round v = Ok vz ->
        munsell_to_lab table h v c = Ok (table !! ("N", vz, 0)))
  /\ munsell_to_lab table (VInt 0) (VInt 5) c = munsell_to_lab table (VInt 100) (VInt 5) c.
Proof.
  intros Hc.
  assert (H : forall h1 h2 v, munsell_to_lab table h1 v c = munsell_to_lab table h2 v c).
  { intros h1 h2 v. unfold munsell_to_lab. rewrite Hc. cbn [bind].
    destruct (table_empty table); [reflexivity|].
    destruct (py_round v); reflexivity. }
  split; [exact H|]. split; [|apply H].
  intros h v vz He Hv. unfold munsell_to_lab. now rewrite He, Hc, Hv.
Qed.

(** C6, witness: chroma 0 in a table with the neutral colour of value 5;
    hue 0 and hue 100 both give it. *)
Lemma neutral_hue_irrelevant_witness :
  munsell_to_lab {[ ("N", 5, 0) := (51 # 1, 0 # 1, 0 # 1)%Q ]} (VInt 0) (VInt 5) (VInt 0)
  = munsell_to_lab {[ ("N", 5, 0) := (51 # 1, 0 # 1, 0 # 1)%Q ]} (VInt 100) (VInt 5) (VInt 0).
Proof.
  exact (proj2 (proj2 (neutral_hue_irrelevant
                         {[ ("N", 5, 0) := (51 # 1, 0 # 1, 0 # 1)%Q ]}
                         (VInt 0) eq_refl))).
Defined.

(** *** Stable sorting *)

Section SortByKeyFacts.

Context {A : Type} (key : A -> Q).

Lemma insert_key_perm (x : A) (l : list A) :
  Permutation (x :: l) (insert_key key x l).
Proof.
  induction l as [|y l IH]; cbn [insert_key].
  - apply Permutation_refl.
  - destruct (Qle_bool (key x) (key y)).
    + apply Permutation_refl.
    + eapply perm_trans; [apply perm_swap|]. now apply perm_skip.
Qed.

Lemma isort_key_perm (l : list A) : Permutation l (isort_key key l).
Proof.
  induction l as [|x l IH]; cbn [isort_key].
  - apply perm_nil.
  - eapply perm_trans; [apply perm_skip, IH | apply insert_key_perm].
Qed.

Lemma Qle_bool_false (a b : Q) : Qle_bool a b = false -> (b <= a)%Q.
Proof.
  intros H. destruct (Qlt_le_dec b a) as [Hlt | Hle].
  - now apply Qlt_le_weak.
  - apply Qle_bool_iff in Hle. congruence.
Qed.

Lemma insert_key_hd (x a : A) (l : list A) :
  key_le key a x -> HdRel (key_le key) a l -> HdRel (key_le key) a (insert_key key x l).
Proof.
  intros Hax Hl. destruct l as [|y l]; cbn [insert_key].
  - now constructor.
  - destruct (Qle_bool (key x) (key y)); constructor; trivial.
    now inversion Hl.
Qed.

Lemma insert_key_sorted (x : A) (l : list A) :
  Sorted (key_le key) l -> Sorted (key_le key) (insert_key key x l).
Proof.
  induction 1 as [|y l Hs IH Hhd]; cbn [insert_key].
  - repeat constructor.
  - destruct (Qle_bool (key x) (key y)) eqn:E.
    + constructor; [now constructor|]. constructor. now apply Qle_bool_iff.
    + constructor; [exact IH|].
      apply insert_key_hd; [|exact Hhd]. now apply Qle_bool_false.
Qed.

Lemma isort_key_sorted (l : list A) : StronglySorted (key_le key) (isort_key key l).
Proof.
  apply Sorted_StronglySorted.
  - intros a b c Hab Hbc. unfold key_le in *. eapply Qle_trans; eassumption.
  - induction l as [|x l IH]; cbn [isort_key]; [constructor|].
    now apply insert_key_sorted.
Qed.

(** Stability: the elements of one start depth keep their order. *)
Lemma insert_key_stable (q : Q) (x : A) (l : list A) :
  List.filter (fun a => Qeq_bool (key a) q) (insert_key key x l)
  = List.filter (fun a => Qeq_bool (key a) q) (x :: l).
Proof.
  induction l as [|y l IH]; [reflexivity|].
  cbn [insert_key]. destruct (Qle_bool (key x) (key y)) eqn:E; [reflexivity|].
  cbn [List.filter] in *. rewrite IH.
  destruct (Qeq_bool (key x) q) eqn:Ex, (Qeq_bool (key y) q) eqn:Ey; try reflexivity.
  apply Qeq_bool_iff in Ex, Ey.
  assert (Hle : Qle_bool (key x) (key y) = true).
  { apply Qle_bool_iff. rewrite Ex, Ey. apply Qle_refl. }
  congruence.
Qed.

Lemma isort_key_stable (q : Q) (l : list A) :
  List.filter (fun a => Qeq_bool (key a) q) (isort_key key l)
  = List.filter (fun a => Qeq_bool (key a) q) l.
Proof.
  induction l as [|x l IH]; [reflexivity|].
  cbn [isort_key]. rewrite insert_key_stable. cbn [List.filter]. now rewrite IH.
Qed.

Lemma insert_by_decorate (x : A) (l : list A) :
  insert_by (key x, x) (decorate key l) = decorate key (insert_key key x l).
Proof.
  induction l as [|y l IH]; [reflexivity|].
  cbn [decorate map insert_by insert_key fst].
  destruct (Qle_bool (key x) (key y)); [reflexivity|].
  cbn [map]. f_equal. exact IH.
Qed.

Lemma isort_by_decorate (l : list A) :
  map snd (isort_by (decorate key l)) = isort_key key l.
Proof.
  assert (H : isort_by (decorate key l) = decorate key (isort_key key l)).
  { induction l as [|x l IH]; [reflexivity|].
    cbn [decorate map isort_by isort_key]. fold (decorate key l).
    now rewrite IH, insert_by_decorate. }
  rewrite H. unfold decorate. rewrite map_map. cbn [snd]. apply map_id.
Qed.

Lemma isort_key_short (l : list A) :
  (length l <= 1)%nat -> isort_key key l = l.
Proof.
  destruct l as [|x [|y l]]; cbn [length]; try reflexivity. lia.
Qed.

End SortByKeyFacts.

Lemma isort_key_ext {A : Type} (key key' : A -> Q) (l : list A) :
  (forall x, key x == key' x)%Q -> isort_key key l = isort_key key' l.
Proof.
  intros H. induction l as [|x l IH]; [reflexivity|].
  cbn [isort_key]. rewrite IH. generalize (isort_key key' l). intros m.
  induction m as [|y m IHm]; [reflexivity|].
  cbn [insert_key]. rewrite IHm.
  assert (E : Qle_bool (key x) (key y) = Qle_bool (key' x) (key' y)).
  { apply eq_true_iff_eq. rewrite !Qle_bool_iff, (H x), (H y). reflexivity. }
  now rewrite E.
Qed.

(** *** [get_visible_intervals] *)

Lemma depth_key_ok (i : value) :
  has_depth_interval i = true -> depth_key i = Ok (key_of i).
Proof.
  destruct i as [| | | | | |d]; try discriminate.
  unfold has_depth_interval, depth_key, key_of, get at 1.
  destruct (assoc "depthInterval" d) as [[| | | | | |di]|]; try discriminate;
    reflexivity.
Qed.

Lemma computed_key_start (x : value * value) :
  (computed_key x == by_start x)%Q.
Proof.
  unfold computed_key, by_start, start_depth, py_or.
  destruct (fst (key_of (fst x))) as [|b|n|q|s|l|d]; cbn; try reflexivity.
  - destruct b; reflexivity.
  - destruct (n =? 0) eqn:E; cbn; [|reflexivity].
    apply Z.eqb_eq in E. now subst n.
  - unfold Qzero. destruct (Qeq_bool q 0) eqn:E; cbn; [|reflexivity].
    apply Qeq_bool_iff in E. now rewrite E.
  - destruct (String.eqb s ""); reflexivity.
  - destruct l; reflexivity.
  - destruct d; reflexivity.
Qed.

Lemma sort_key_ok (x : value * value) :
  interval_ok (fst x) = true ->
  exists k, sort_key x = Ok (k, x) /\ num_of k = Some (computed_key x).
Proof.
  unfold interval_ok. intros H. apply andb_true_iff in H as [Hd Hs].
  exists (py_or (fst (key_of (fst x))) (VInt 0)).
  unfold sort_key. rewrite (depth_key_ok _ Hd). cbn [bind]. split; [reflexivity|].
  unfold computed_key, py_or, is_number in *.
  destruct (fst (key_of (fst x))) as [|b|n|q|s|l|d]; try discriminate Hs;
    try reflexivity.
  - destruct b; reflexivity.
  - cbn. destruct (n =? 0); reflexivity.
  - cbn. destruct (Qzero q); reflexivity.
Qed.

(** The final sort of [get_visible_intervals] is the stable sort by
    start depth. *)
Lemma sort_by_start (l : list (value * value)) :
  forallb (fun x => interval_ok (fst x)) l = true ->
  (let* keyed := mapM sort_key l in py_sort keyed) = Ok (isort_key by_start l).
Proof.
  intros Hl.
  assert (Hk : exists keyed,
             mapM sort_key l = Ok keyed /\ length keyed = length l
             /\ mapM numeric_key keyed = Ok (decorate computed_key l)
             /\ map snd keyed = l).
  { induction l as [|x l IH]; [exists []; repeat split|].
    cbn [forallb] in Hl. apply andb_true_iff in Hl as [Hx Hl].
    destruct (IH Hl) as (keyed & Hm & Hlen & Hn & Hs).
    destruct (sort_key_ok x Hx) as (k & Hk & Hq).
    exists ((k, x) :: keyed). cbn [mapM]. rewrite Hk, Hm. cbn [bind].
    repeat split.
    - cbn [length]. now rewrite Hlen.
    - unfold numeric_key at 1. cbn [fst snd]. rewrite Hq, Hn. reflexivity.
    - cbn [map snd]. now rewrite Hs. }
  destruct Hk as (keyed & Hm & Hlen & Hn & Hs). rewrite Hm. cbn [bind].
  rewrite (isort_key_ext by_start computed_key)
    by (intros x; symmetry; apply computed_key_start).
  unfold py_sort. destruct keyed as [|k1 [|k2 keyed]].
  - rewrite Hs. destruct l; [reflexivity | discriminate Hlen].
  - rewrite Hs. rewrite isort_key_short; [reflexivity|]. rewrite <- Hlen. cbn. lia.
  - rewrite Hn. cbn [bind]. now rewrite isort_by_decorate.
Qed.

Lemma builtin_intervals_ok (l : list (Z * Z)) :
  forallb interval_ok (_build_depth_intervals l) = true.
Proof. induction l as [|d l IH]; [reflexivity | exact IH]. Qed.

Lemma site_preset_not_custom (preset : value) :
  eq_str (if eq_str preset PRESET_CUSTOM then VStr PRESET_NONE
          else py_or preset (VStr PRESET_NONE)) PRESET_CUSTOM = false.
Proof.
  destruct (eq_str preset PRESET_CUSTOM) eqn:E; [reflexivity|].
  unfold py_or. destruct (truthy preset); [exact E | reflexivity].
Qed.

(** A well-shaped site has an effective preset, and the preset is
    [CUSTOM] only when the project supplies it. *)
Lemma site_ok_effective_preset (site : value) :
  site_ok site = true ->
  exists eff, get_effective_preset site = Ok eff
              /\ (eq_str eff PRESET_CUSTOM = true -> custom_source_ok site = true).
Proof.
  destruct site as [| | | | | |d]; try discriminate.
  unfold site_ok, custom_source_ok, get_effective_preset.
  intros H. apply andb_true_iff in H as [Hp Hsd].
  rewrite get_field. unfold field. cbn [bind].
  assert (Hsite : exists eff,
             (let* soil_data := get (VDict d) "soilData" (VDict []) in
              let* preset := get soil_data "depthIntervalPreset" VNone in
              Ok (if eq_str preset PRESET_CUSTOM then VStr PRESET_NONE
                  else py_or preset (VStr PRESET_NONE))) = Ok eff
             /\ eq_str eff PRESET_CUSTOM = false).
  { cbn [get]. destruct (assoc "soilData" d) as [[| | | | | |sd]|];
      try discriminate Hsd; cbn [bind get]; eexists;
      (split; [reflexivity | apply site_preset_not_custom]). }
  destruct Hsite as (eff0 & He0 & Hc0).
  destruct (assoc "project" d) as [[| | | | | |p]|]; try discriminate Hp;
    try (exists eff0; split; [exact He0 | congruence]).
  destruct p as [|b p']; [exists eff0; split; [exact He0 | congruence]|].
  cbn [truthy]. rewrite get_field. unfold field. cbn [bind].
  destruct (assoc "soilSettings" (b :: p')) as [[| | | | | |ss]|];
    try discriminate Hp; try (eexists; split; [reflexivity | discriminate]).
  destruct ss as [|c ss']; [eexists; split; [reflexivity | discriminate]|].
  rewrite py_or_truthy by reflexivity. rewrite get_field. cbn [bind].
  eexists; split; [reflexivity|]. intros _.
  unfold intervals_ok in Hp.
  destruct (assoc "depthIntervals" (c :: ss')) as [[| | | | |l|]|];
    try discriminate Hp; reflexivity.
Qed.

Lemma site_ok_project_custom_intervals (site : value) :
  site_ok site = true -> forallb interval_ok (project_custom_intervals site) = true.
Proof.
  destruct site as [| | | | | |d]; try discriminate.
  unfold site_ok, project_custom_intervals.
  intros H. apply andb_true_iff in H as [Hp _].
  destruct (assoc "project" d) as [[| | | | | |p]|]; try reflexivity.
  destruct (assoc "soilSettings" p) as [[| | | | | |ss]|]; try reflexivity.
  unfold intervals_ok in Hp.
  destruct (assoc "depthIntervals" ss) as [[| | | | |l|]|]; try reflexivity.
  exact Hp.
Qed.

Lemma site_ok_custom_intervals (site : value) :
  site_ok site = true ->
  (let* soil_data := get site "soilData" (VDict []) in
   let* site_intervals := get soil_data "depthIntervals" (VList []) in
   py_iter site_intervals) = Ok (site_custom_intervals site)
  /\ forallb interval_ok (site_custom_intervals site) = true.
Proof.
  destruct site as [| | | | | |d]; try discriminate.
  unfold site_ok, site_custom_intervals.
  intros H. apply andb_true_iff in H as [_ Hsd]. cbn [get].
  destruct (assoc "soilData" d) as [[| | | | | |sd]|]; try discriminate Hsd;
    [|split; reflexivity].
  cbn [bind get]. unfold intervals_ok in Hsd.
  destruct (assoc "depthIntervals" sd) as [[| | | | |l|]|]; try discriminate Hsd;
    split; trivial.
Qed.

Section VisibleIntervals.

Variable NRCS : list (Z * Z).
Variable BLM : list (Z * Z).

Lemma presetIntervals_ok (eff site : value) :
  site_ok site = true ->
  forallb interval_ok (presetIntervals NRCS BLM eff site) = true.
Proof.
  intros H. unfold presetIntervals.
  destruct (eq_str eff PRESET_NRCS); [apply builtin_intervals_ok|].
  destruct (eq_str eff PRESET_BLM); [apply builtin_intervals_ok|].
  destruct (eq_str eff PRESET_CUSTOM); [|reflexivity].
  now apply site_ok_project_custom_intervals.
Qed.

Lemma tagged_intervals_ok (eff : value) (pis sis : list value) :
  forallb interval_ok pis = true -> forallb interval_ok sis = true ->
  forallb (fun x => interval_ok (fst x)) (tagged_intervals eff pis sis) = true.
Proof.
  intros Hp Hs. unfold tagged_intervals. rewrite forallb_app.
  assert (H : forall tag l, forallb interval_ok l = true ->
                forallb (fun x : value * value => interval_ok (fst x))
                  (map (fun i => (i, tag)) l) = true).
  { intros tag l. induction l as [|i l IH]; [reflexivity|].
    cbn [forallb map fst]. intros Hl. apply andb_true_iff in Hl as [Hi Hl].
    now rewrite Hi, IH. }
  now rewrite !H.
Qed.

(** What [get_visible_intervals] computes on a well-shaped site. *)
Lemma get_visible_intervals_spec (site : value) :
  site_ok site = true ->
  exists eff,
    get_effective_preset site = Ok eff
    /\ get_preset_intervals NRCS BLM eff site
       = Ok (VList (presetIntervals NRCS BLM eff site))
    /\ get_visible_intervals NRCS BLM site
       = Ok (isort_key by_start
               (tagged_intervals eff (presetIntervals NRCS BLM eff site)
                  (site_custom_intervals site))).
Proof.
  intros Hok.
  destruct (site_ok_effective_preset site Hok) as (eff & He & Hc).
  assert (Hpi : get_preset_intervals NRCS BLM eff site
                = Ok (VList (presetIntervals NRCS BLM eff site))).
  { apply get_preset_intervals_spec.
    destruct (eq_str eff PRESET_CUSTOM); [|reflexivity].
    rewrite Hc by reflexivity. apply orb_true_r. }
  exists eff. split; [exact He|]. split; [exact Hpi|].
  destruct (site_ok_custom_intervals site Hok) as [Hsi Hsok].
  unfold get_visible_intervals. rewrite He. cbn [bind]. rewrite Hpi. cbn [bind py_iter].
  destruct (get site "soilData" (VDict [])) as [sd|e]; [|discriminate Hsi].
  cbn [bind] in *.
  destruct (get sd "depthIntervals" (VList [])) as [si|e]; [|discriminate Hsi].
  cbn [bind] in *. rewrite Hsi. cbn [bind].
  apply sort_by_start. apply tagged_intervals_ok; [|exact Hsok].
  now apply presetIntervals_ok.
Qed.

(** C4: on a well-shaped site [get_visible_intervals] returns the
    effective preset's intervals under the preset's tag together with
    all the site's own intervals under the tag [CUSTOM], none dropped or
    merged or rewritten, in non-decreasing order of start depth (a
    missing start counting as 0), intervals of one start depth in their
    order of insertion. *)
Theorem get_visible_intervals_sorted (site : value) :
  site_ok site = true ->
  exists eff pis r,
    get_effective_preset site = Ok eff
    /\ get_preset_intervals NRCS BLM eff site = Ok (VList pis)
    /\ get_visible_intervals NRCS BLM site = Ok r
    /\ Permutation (tagged_intervals eff pis (site_custom_intervals site)) r
    /\ length r = (length pis + length (site_custom_intervals site))%nat
    /\ StronglySorted (fun a b => (by_start a <= by_start b)%Q) r
    /\ (forall q,
          List.filter (fun x => Qeq_bool (by_start x) q) r
          = List.filter (fun x => Qeq_bool (by_start x) q)
              (tagged_intervals eff pis (site_custom_intervals site))).
Proof.
  intros Hok. destruct (get_visible_intervals_spec site Hok) as (eff & He & Hp & Hv).
  exists eff, (presetIntervals NRCS BLM eff site). eexists.
  split; [exact He|]. split; [exact Hp|]. split; [exact Hv|].
  split; [apply isort_key_perm|]. split.
  - rewrite <- (Permutation_length (isort_key_perm by_start _)).
    unfold tagged_intervals. now rewrite length_app, !length_map.
  - split; [apply (isort_key_sorted by_start) | intros q; apply isort_key_stable].
Qed.

End VisibleIntervals.

(** *** The entries of [depthDependentData] *)

Lemma assoc_app (k : string) (l1 l2 : list (string * value)) :
  assoc k (l1 ++ l2)
  = match assoc k l1 with Some v => Some v | None => assoc k l2 end.
Proof.
  induction l1 as [|[k' v] l1 IH]; [reflexivity|].
  cbn [app assoc]. destruct (String.eqb k k'); [reflexivity | exact IH].
Qed.

Lemma depth_entry_eq (table : lab_table) (d : list (string * value)) :
  measurement_ok (VDict d) = true ->
  depth_entry table (VDict d) = Ok (VDict (entry_fields table d)).
Proof.
  unfold measurement_ok. intros H.
  apply andb_true_iff in H as [H Hcol].
  apply andb_true_iff in H as [H _]. apply andb_true_iff in H as [Hdi _].
  unfold depth_entry, entry_fields, colour_lab.
  assert (Hkey : (let* di := get (VDict d) "depthInterval" (VDict []) in
                  let* s := get di "start" VNone in
                  let* e := get di "end" VNone in Ok (s, e)) = Ok (key_of (VDict d))).
  { exact (depth_key_ok (VDict d) Hdi). }
  destruct (get (VDict d) "depthInterval" (VDict [])) as [di|]; [|discriminate Hkey].
  cbn [bind] in *.
  destruct (get di "start" VNone) as [st|]; [|discriminate Hkey]. cbn [bind] in *.
  destruct (get di "end" VNone) as [en|]; [|discriminate Hkey]. cbn [bind] in *.
  assert (Hk : key_of (VDict d) = (st, en)) by congruence.
  rewrite Hk. cbn [fst snd]. clear Hkey Hk.
  rewrite !get_field. cbn [bind].
  destruct (truthy (field d "texture")), (truthy (field d "rockFragmentVolume"));
    cbn [app];
    (destruct (is_none (field d "colorHue")); [reflexivity|];
     destruct (is_none (field d "colorValue")); [reflexivity|];
     destruct (is_none (field d "colorChroma")); [reflexivity|];
     cbn [orb negb andb] in *;
     apply andb_true_iff in Hcol as [Hcol Hc]; apply andb_true_iff in Hcol as [Hh Hv];
     destruct (munsell_to_lab_total table _ _ _ Hh Hv Hc)
       as (hs & vz & cz & _ & _ & _ & Hm);
     rewrite Hm; cbn [bind];
     destruct (table !! (hs, vz, cz)) as [[[l a] b]|]; reflexivity).
Qed.

Lemma key_of_entry (table : lab_table) (d : list (string * value)) :
  key_of (VDict (entry_fields table d)) = key_of (VDict d).
Proof.
  unfold entry_fields. rewrite <- !app_assoc.
  generalize (key_of (VDict d)). intros [st en]. reflexivity.
Qed.

(** C8: the entry built for a measurement always has its
    [depthInterval]; it has [texture] and [rockFragmentVolume] exactly
    when the measurement's are truthy, with the measurement's values;
    and it has [colorLAB] exactly when none of the three colour channels
    is [None] and the converter finds the colour.  The entry is built
    in every case. *)
Theorem depth_entry_fields (table : lab_table) (d : list (string * value)) :
  measurement_ok (VDict d) = true ->
  exists fields,
    depth_entry table (VDict d) = Ok (VDict fields)
    /\ assoc "depthInterval" fields
       = Some (VDict [("start", fst (key_of (VDict d)));
                      ("end", snd (key_of (VDict d)))])
    /\ (forall t, assoc "texture" fields = Some t
                  <-> field d "texture" = t /\ truthy t = true)
    /\ (forall r, assoc "rockFragmentVolume" fields = Some r
                  <-> field d "rockFragmentVolume" = r /\ truthy r = true)
    /\ (forall x, assoc "colorLAB" fields = Some x
                  <-> is_none (field d "colorHue") = false
                      /\ is_none (field d "colorValue") = false
                      /\ is_none (field d "colorChroma") = false
                      /\ exists lab,
                           munsell_to_lab table (field d "colorHue")
                             (field d "colorValue") (field d "colorChroma")
                           = Ok (Some lab)
                           /\ x = lab_dict lab).
Proof.
  intros Hok. exists (entry_fields table d).
  split; [now apply depth_entry_eq|].
  unfold entry_fields. rewrite !assoc_app.
  split; [reflexivity|]. cbn [assoc String.eqb Ascii.eqb Bool.eqb]. split; [|split].
  - intros t. destruct (truthy (field d "texture")) eqn:Ht.
    + cbn. split; [intros [= <-]; now split | intros [<- _]; reflexivity].
    + destruct (truthy (field d "rockFragmentVolume")), (colour_lab table d);
        cbn; (split; [discriminate | intros [<- Ht']; congruence]).
  - intros r. destruct (truthy (field d "texture")); cbn;
      destruct (truthy (field d "rockFragmentVolume")) eqn:Hr; cbn;
      try (split; [intros [= <-]; now split | intros [<- _]; reflexivity]);
      destruct (colour_lab table d); cbn;
      (split; [discriminate | intros [<- Hr']; congruence]).
  - intros x.
    assert (Hc : match colour_lab table d with
                 | Some lab => Some (lab_dict lab)
                 | None => None
                 end = Some x
                 <-> is_none (field d "colorHue") = false
                     /\ is_none (field d "colorValue") = false
                     /\ is_none (field d "colorChroma") = false
                     /\ exists lab,
                          munsell_to_lab table (field d "colorHue")
                            (field d "colorValue") (field d "colorChroma")
                          = Ok (Some lab)
                          /\ x = lab_dict lab).
    { unfold colour_lab.
      destruct (is_none (field d "colorHue"));
        [split; [discriminate | intros [? _]; discriminate]|].
      destruct (is_none (field d "colorValue"));
        [split; [discriminate | intros (_ & ? & _); discriminate]|].
      destruct (is_none (field d "colorChroma"));
        [split; [discriminate | intros (_ & _ & ? & _); discriminate]|].
      cbn [orb].
      destruct (munsell_to_lab table (field d "colorHue") (field d "colorValue")
                  (field d "colorChroma")) as [[lab|]|e].
      - split.
        + intros [= <-]. repeat (split; [reflexivity|]). now exists lab.
        + intros (_ & _ & _ & lab' & [= <-] & ->). reflexivity.
      - split; [discriminate | intros (_ & _ & _ & lab' & ? & _); discriminate].
      - split; [discriminate | intros (_ & _ & _ & lab' & ? & _); discriminate]. }
    rewrite <- Hc.
    destruct (truthy (field d "texture")), (truthy (field d "rockFragmentVolume")),
      (colour_lab table d); cbn; reflexivity.
Qed.

(** *** The filter of [fetch_soil_id] *)

Lemma key_in_ok (keys : list (value * value)) (m : value) :
  key_hashable m = true ->
  key_in (key_of m) keys = Ok (visible_measurement keys m).
Proof.
  unfold key_hashable, key_in, hash_key. intros ->. reflexivity.
Qed.

Lemma measurement_ok_parts (m : value) :
  measurement_ok m = true ->
  exists d, m = VDict d /\ has_depth_interval m = true /\ key_hashable m = true.
Proof.
  destruct m as [| | | | | |d]; try discriminate.
  intros H. exists d. split; [reflexivity|].
  unfold measurement_ok in H.
  apply andb_true_iff in H as [H _]. apply andb_true_iff in H as [H He].
  apply andb_true_iff in H as [Hd Hs].
  split; [exact Hd|]. unfold key_hashable. now rewrite Hs, He.
Qed.

(** The loop keeps the measurements whose key is among the visible
    keys, in their order, and builds the entry of each. *)
Lemma depth_dependent_data_filter (table : lab_table)
    (keys : list (value * value)) (ms : list value) :
  forallb measurement_ok ms = true ->
  exists entries,
    depth_dependent_data table keys ms = Ok entries
    /\ mapM (depth_entry table) (List.filter (visible_measurement keys) ms) = Ok entries.
Proof.
  induction ms as [|m ms IH]; [exists []; split; reflexivity|].
  cbn [forallb]. intros H. apply andb_true_iff in H as [Hm Hms].
  destruct (IH Hms) as (entries & Hloop & Hmap).
  destruct (measurement_ok_parts m Hm) as (d & -> & Hd & Hh).
  cbn [depth_dependent_data List.filter].
  rewrite (depth_key_ok _ Hd). cbn [bind]. rewrite (key_in_ok keys _ Hh). cbn [bind].
  destruct (visible_measurement keys (VDict d)); cbn [negb].
  - exists (VDict (entry_fields table d) :: entries).
    cbn [mapM]. rewrite (depth_entry_eq table d Hm), Hloop, Hmap. split; reflexivity.
  - exists entries. split; assumption.
Qed.

Lemma entries_keys (table : lab_table) (ms entries : list value) :
  forallb measurement_ok ms = true ->
  mapM (depth_entry table) ms = Ok entries ->
  map key_of entries = map key_of ms.
Proof.
  revert entries. induction ms as [|m ms IH]; intros entries.
  - intros _ [= <-]. reflexivity.
  - cbn [forallb mapM]. intros H. apply andb_true_iff in H as [Hm Hms].
    destruct (measurement_ok_parts m Hm) as (d & -> & _ & _).
    rewrite (depth_entry_eq table d Hm). cbn [bind].
    destruct (mapM (depth_entry table) ms) as [es|]; [|discriminate].
    cbn [bind]. intros [= <-]. cbn [map].
    now rewrite key_of_entry, (IH es Hms eq_refl).
Qed.

Lemma forallb_filter_ok {A : Type} (f p : A -> bool) (l : list A) :
  forallb f l = true -> forallb f (List.filter p l) = true.
Proof.
  induction l as [|a l IH]; [reflexivity|].
  cbn [forallb List.filter]. intros H. apply andb_true_iff in H as [Ha Hl].
  destruct (p a); cbn [forallb]; [rewrite Ha|]; now apply IH.
Qed.

Lemma visible_keys_ok (vis : list (value * value)) :
  forallb (fun x => has_depth_interval (fst x) && key_hashable (fst x)) vis = true ->
  mapM (fun x => let* k := depth_key (fst x) in hash_key k) vis
  = Ok (map (fun x => key_of (fst x)) vis).
Proof.
  induction vis as [|x vis IH]; [reflexivity|].
  cbn [forallb mapM map]. intros H. apply andb_true_iff in H as [Hx Hv].
  apply andb_true_iff in Hx as [Hd Hh].
  rewrite (depth_key_ok _ Hd). cbn [bind]. unfold hash_key at 1.
  unfold key_hashable in Hh. rewrite Hh, (IH Hv). reflexivity.
Qed.

Lemma forallb_perm {A : Type} (f : A -> bool) (l l' : list A) :
  Permutation l l' -> forallb f l = true -> forallb f l' = true.
Proof.
  intros Hp Hl. apply forallb_forall. intros x Hx.
  rewrite forallb_forall in Hl. apply Hl.
  eapply Permutation_in; [apply Permutation_sym; exact Hp | exact Hx].
Qed.

Lemma interval_ok_depth (i : value) :
  interval_ok i = true -> has_depth_interval i = true.
Proof. unfold interval_ok. intros H. now apply andb_true_iff in H as [H _]. Qed.

Lemma site_measurements_get (d : list (string * value)) (ms : list value) :
  site_measurements (VDict d) = Some ms ->
  exists sd, get (VDict d) "soilData" (VDict []) = Ok (VDict sd)
             /\ get (VDict sd) "depthDependentData" (VList []) = Ok (VList ms).
Proof.
  unfold site_measurements. cbn [get].
  destruct (assoc "soilData" d) as [[| | | | | |sd]|]; try discriminate.
  - exists sd. split; [reflexivity|]. cbn [get].
    destruct (assoc "depthDependentData" sd) as [[| | | | |l|]|]; try discriminate;
      congruence.
  - intros [= <-]. exists []. split; reflexivity.
Qed.

Section FetchSoilIdFacts.

Variable NRCS : list (Z * Z).
Variable BLM : list (Z * Z).

Lemma visible_intervals_have_keys (site : value) (vis : list (value * value)) :
  site_ok site = true ->
  get_visible_intervals NRCS BLM site = Ok vis ->
  forallb (fun x => has_depth_interval (fst x)) vis = true.
Proof.
  intros Hok Hvis.
  destruct (get_visible_intervals_spec NRCS BLM site Hok) as (eff & _ & _ & Hv).
  rewrite Hv in Hvis. injection Hvis as <-.
  eapply forallb_perm; [apply isort_key_perm|].
  destruct (site_ok_custom_intervals site Hok) as [_ Hs].
  pose proof (tagged_intervals_ok eff _ _ (presetIntervals_ok NRCS BLM eff site Hok) Hs) as H.
  apply forallb_forall. intros x Hx. rewrite forallb_forall in H.
  apply interval_ok_depth. now apply H.
Qed.

(** The request [fetch_soil_id] builds when the cache does not answer
    and both coordinates are truthy. *)
Lemma soil_id_request_data (w : world) (d : list (string * value))
    (vis : list (value * value)) (ms : list value) :
  cache_hit w (field d "id") = Ok None ->
  truthy (field d "latitude") = true -> truthy (field d "longitude") = true ->
  site_ok (VDict d) = true ->
  get_visible_intervals NRCS BLM (VDict d) = Ok vis ->
  forallb (fun x => key_hashable (fst x)) vis = true ->
  site_measurements (VDict d) = Some ms ->
  forallb measurement_ok ms = true ->
  exists slope cracks entries,
    soil_id_request NRCS BLM w (VDict d)
    = Ok (inr (VDict [("latitude", field d "latitude");
                      ("longitude", field d "longitude");
                      ("data", VDict [("slope", slope);
                                      ("surfaceCracks", cracks);
                                      ("depthDependentData", VList entries)])]))
    /\ mapM (depth_entry (_munsell_lab_table w))
         (List.filter (visible_measurement (map (fun x => key_of (fst x)) vis)) ms)
       = Ok entries.
Proof.
  intros Hc Hlat Hlon Hok Hvis Hhash Hms Hmok.
  destruct (site_measurements_get d ms Hms) as (sd & Hsd & Hdd).
  assert (Hkeys : mapM (fun x => let* k := depth_key (fst x) in hash_key k) vis
                  = Ok (map (fun x => key_of (fst x)) vis)).
  { apply visible_keys_ok.
    pose proof (visible_intervals_have_keys _ _ Hok Hvis) as Hd.
    apply forallb_forall. intros x Hx.
    rewrite forallb_forall in Hd, Hhash. now rewrite Hd, Hhash. }
  destruct (depth_dependent_data_filter (_munsell_lab_table w)
              (map (fun x => key_of (fst x)) vis) ms Hmok) as (entries & Hloop & Hmap).
  exists (field sd "slopeSteepnessDegree"),
    (match assoc "surfaceCracksSelect" sd with
     | Some v => v
     | None => VStr "NO_CRACKING"
     end), entries.
  split; [|exact Hmap].
  unfold soil_id_request. rewrite get_field. cbn [bind]. rewrite Hc. cbn [bind].
  rewrite !get_field. cbn [bind]. rewrite Hlat, Hlon. cbn [negb orb].
  rewrite Hsd. cbn [bind]. rewrite get_field. cbn [bind get].
  rewrite Hvis. cbn [bind]. rewrite Hkeys. cbn [bind].
  change (match assoc "depthDependentData" sd with
          | Some v => v
          | None => VList []
          end) with
    (match get (VDict sd) "depthDependentData" (VList []) with
     | Ok v => v
     | Raise _ => VNone
     end).
  rewrite Hdd. cbn [py_iter bind]. rewrite Hloop. reflexivity.
Qed.

(** C7: when [fetch_soil_id] reaches the soil matching query, the
    [depthDependentData] it hands over are the entries of exactly those
    measurements whose [(start, end)] key is the key of one of the
    site's visible intervals, in the order of the measurement list. *)
Theorem fetch_soil_id_keeps_visible (w : world) (d : list (string * value))
    (vis : list (value * value)) (ms : list value) :
  cache_hit w (field d "id") = Ok None ->
  truthy (field d "latitude") = true -> truthy (field d "longitude") = true ->
  site_ok (VDict d) = true ->
  get_visible_intervals NRCS BLM (VDict d) = Ok vis ->
  forallb (fun x => key_hashable (fst x)) vis = true ->
  site_measurements (VDict d) = Some ms ->
  forallb measurement_ok ms = true ->
  let kept := List.filter (visible_measurement (map (fun x => key_of (fst x)) vis)) ms in
  exists slope cracks entries,
    snd (fetch_soil_id NRCS BLM w (VDict d))
    = [VDict [("latitude", field d "latitude");
              ("longitude", field d "longitude");
              ("data", VDict [("slope", slope);
                              ("surfaceCracks", cracks);
                              ("depthDependentData", VList entries)])]]
    /\ mapM (depth_entry (_munsell_lab_table w)) kept = Ok entries
    /\ map key_of entries = map key_of kept
    /\ (forall m, In m kept <->
                  In m ms /\ exists x, In x vis
                                       /\ key_eqb (key_of m) (key_of (fst x)) = true).
Proof.
  intros Hc Hlat Hlon Hok Hvis Hhash Hms Hmok kept.
  destruct (soil_id_request_data w d vis ms Hc Hlat Hlon Hok Hvis Hhash Hms Hmok)
    as (slope & cracks & entries & Hreq & Hmap).
  exists slope, cracks, entries.
  split; [unfold fetch_soil_id; now rewrite Hreq|].
  split; [exact Hmap|]. split.
  - apply (entries_keys (_munsell_lab_table w)); [|exact Hmap].
    now apply forallb_filter_ok.
  - intros m. unfold kept. rewrite filter_In. unfold visible_measurement.
    rewrite existsb_exists. split.
    + intros [Hin (k & Hk & He)]. split; [exact Hin|].
      apply in_map_iff in Hk as (x & <- & Hx). now exists x.
    + intros [Hin (x & Hx & He)]. split; [exact Hin|].
      exists (key_of (fst x)). split; [|exact He].
      apply in_map_iff. now exists x.
Qed.

End FetchSoilIdFacts.

(** *** The cache and the coordinate check of [fetch_soil_id] *)

Lemma bind_not_inl {A B C : Type} (r : result A) (k : A -> result (B + C)) :
  (forall x b, k x <> Ok (inl b)) -> forall b, bind r k <> Ok (inl b).
Proof. intros H b. destruct r as [x|e]; [apply H | discriminate]. Qed.

Lemma none_or_zero_falsy (v : value) :
  is_none v || is_number v = true -> none_or_zero v = negb (truthy v).
Proof.
  destruct v as [|b|n|q|s|l|d]; try discriminate; intros _; cbn.
  - reflexivity.
  - destruct b; reflexivity.
  - rewrite Bool.negb_involutive. apply eq_true_iff_eq.
    unfold Qzero. rewrite Qeq_bool_iff, Z.eqb_eq. unfold Qeq. cbn. lia.
  - now rewrite Bool.negb_involutive.
Qed.

Section CoordinateCheck.

Variable NRCS : list (Z * Z).
Variable BLM : list (Z * Z).

Lemma soil_id_request_cached (w : world) (d : list (string * value)) (answer : value) :
  cache_hit w (field d "id") = Ok (Some answer) ->
  soil_id_request NRCS BLM w (VDict d) = Ok (inl answer).
Proof.
  intros H. unfold soil_id_request. rewrite get_field. cbn [bind]. now rewrite H.
Qed.

Lemma soil_id_request_guard (w : world) (d : list (string * value)) :
  cache_hit w (field d "id") = Ok None ->
  negb (truthy (field d "latitude")) || negb (truthy (field d "longitude")) = true ->
  soil_id_request NRCS BLM w (VDict d) = Ok (inl missing_coordinates).
Proof.
  intros Hc Hg. unfold soil_id_request. rewrite get_field. cbn [bind].
  rewrite Hc. cbn [bind]. rewrite !get_field. cbn [bind]. now rewrite Hg.
Qed.

Lemma soil_id_request_proceeds (w : world) (d : list (string * value)) :
  cache_hit w (field d "id") = Ok None ->
  negb (truthy (field d "latitude")) || negb (truthy (field d "longitude")) = false ->
  forall answer, soil_id_request NRCS BLM w (VDict d) <> Ok (inl answer).
Proof.
  intros Hc Hg. unfold soil_id_request. rewrite get_field. cbn [bind].
  rewrite Hc. cbn [bind]. rewrite !get_field. cbn [bind]. rewrite Hg.
  repeat (apply bind_not_inl; intros ?). discriminate.
Qed.

(** C9, as the code has it: when no cached answer is returned, a site
    whose latitude or longitude is missing gets the error mapping, and
    no query is made. *)
Theorem missing_coordinates_short_circuit (w : world) (d : list (string * value)) :
  cache_hit w (field d "id") = Ok None ->
  field d "latitude" = VNone \/ field d "longitude" = VNone ->
  fetch_soil_id NRCS BLM w (VDict d)
  = (Ok (VDict [("error", VStr "Site missing latitude or longitude")]), []).
Proof.
  intros Hc Hm. unfold fetch_soil_id. rewrite soil_id_request_guard; trivial.
  destruct Hm as [-> | ->]; [reflexivity | apply orb_true_r].
Qed.

(** C10: when no cached answer is returned, and the coordinates are
    numbers or [None], the error mapping is returned (and no query
    made) exactly when the latitude or the longitude is [None] or
    zero; and a cached answer is returned whatever the coordinates. *)
Theorem coordinate_check_is_truthiness (w : world) (d : list (string * value)) :
  (cache_hit w (field d "id") = Ok None ->
   is_none (field d "latitude") || is_number (field d "latitude") = true ->
   is_none (field d "longitude") || is_number (field d "longitude") = true ->
   (fetch_soil_id NRCS BLM w (VDict d) = (Ok missing_coordinates, [])
    <-> none_or_zero (field d "latitude") || none_or_zero (field d "longitude") = true))
  /\ (forall answer, cache_hit w (field d "id") = Ok (Some answer) ->
        fetch_soil_id NRCS BLM w (VDict d) = (Ok answer, [])).
Proof.
  split.
  - intros Hc Hlat Hlon.
    rewrite (none_or_zero_falsy _ Hlat), (none_or_zero_falsy _ Hlon).
    destruct (negb (truthy (field d "latitude")) || negb (truthy (field d "longitude")))
      eqn:Hg.
    + split; [reflexivity|]. intros _. unfold fetch_soil_id.
      now rewrite soil_id_request_guard.
    + split; [|discriminate]. intros Hf. exfalso.
      pose proof (soil_id_request_proceeds w d Hc Hg) as Hp.
      unfold fetch_soil_id in Hf.
      destruct (soil_id_request NRCS BLM w (VDict d)) as [[answer|variables]|e].
      * now apply (Hp answer).
      * discriminate Hf.
      * discriminate Hf.
  - intros answer Hc. unfold fetch_soil_id.
    now rewrite (soil_id_request_cached w d answer Hc).
Qed.

End CoordinateCheck.

(** *** The statements on the sample data *)

(** C3, witness: the project's [CUSTOM] wins over the site's [NRCS];
    without a project the site's [NRCS] applies. *)
Lemma get_effective_preset_precedence_witness :
  get_effective_preset (VDict sample_project_fields) = Ok (VStr "CUSTOM")
  /\ get_effective_preset sample_site = Ok (VStr "NRCS").
Proof.
  split.
  - refine (proj1 (proj1 (get_effective_preset_precedence sample_project_fields)
                     [("id", VStr "project-1");
                      ("soilSettings",
                       VDict [("depthIntervalPreset", VStr "CUSTOM");
                              ("depthIntervals",
                               VList [VDict [("label", VStr "a");
                                             depth_interval 10 20]])])]
                     eq_refl _)
                  [("depthIntervalPreset", VStr "CUSTOM");
                   ("depthIntervals",
                    VList [VDict [("label", VStr "a"); depth_interval 10 20]])]
                  (VStr "CUSTOM") eq_refl eq_refl eq_refl).
    discriminate.
  - refine (proj2 (proj2 (proj2 (get_effective_preset_precedence sample_fields)
                            eq_refl _ eq_refl))
                  "NRCS" eq_refl _ _); discriminate.
Defined.

(** C4, witness: the sample site has the six intervals of the preset
    and its own two, in order of start depth. *)
Lemma get_visible_intervals_sorted_witness :
  exists r,
    get_visible_intervals sample_nrcs sample_blm sample_site = Ok r
    /\ length r = 8%nat
    /\ StronglySorted (fun a b => (by_start a <= by_start b)%Q) r.
Proof.
  destruct (get_visible_intervals_sorted sample_nrcs sample_blm sample_site eq_refl)
    as (eff & pis & r & He & Hp & Hv & _ & Hlen & Hs & _).
  exists r. split; [exact Hv|]. split; [|exact Hs].
  assert (Heff : eff = VStr "NRCS") by (vm_compute in He; congruence).
  subst eff.
  assert (Hpis : length pis = 6%nat).
  { vm_compute in Hp. injection Hp as <-. reflexivity. }
  rewrite Hlen, Hpis. reflexivity.
Defined.

(** The keys and tags of the visible intervals of the sample site: the
    interval 0-5 is there under both tags, the preset's first. *)
Example sample_visible_intervals :
  match get_visible_intervals sample_nrcs sample_blm sample_site with
  | Ok r => map (fun x => (key_of (fst x), snd x)) r
  | Raise _ => []
  end
  = [((VInt 0, VInt 5), VStr "NRCS");
     ((VInt 0, VInt 5), VStr "CUSTOM");
     ((VInt 0, VInt 10), VStr "CUSTOM");
     ((VInt 5, VInt 15), VStr "NRCS");
     ((VInt 15, VInt 30), VStr "NRCS");
     ((VInt 30, VInt 60), VStr "NRCS");
     ((VInt 60, VInt 100), VStr "NRCS");
     ((VInt 100, VInt 200), VStr "NRCS")].
Proof. vm_compute. reflexivity. Qed.

(** C7, witness: of the four measurements of the sample site the one
    at 7-9 cm is dropped; the others are handed over in their order. *)
Lemma fetch_soil_id_keeps_visible_witness :
  exists variables entries,
    snd (fetch_soil_id sample_nrcs sample_blm sample_world sample_site) = [variables]
    /\ map key_of entries = [(VInt 0, VInt 10); (VInt 0, VInt 5); (VInt 5, VInt 15)].
Proof.
  destruct (fetch_soil_id_keeps_visible sample_nrcs sample_blm sample_world sample_fields
              (match get_visible_intervals sample_nrcs sample_blm sample_site with
               | Ok vis => vis
               | Raise _ => []
               end)
              (match site_measurements sample_site with
               | Some ms => ms
               | None => []
               end)
              eq_refl eq_refl eq_refl eq_refl eq_refl eq_refl eq_refl eq_refl)
    as (slope & cracks & entries & Hq & _ & Hk & _).
  eexists. exists entries. split; [exact Hq|].
  rewrite Hk. reflexivity.
Defined.

(** C8, witness: the first measurement of the sample site, whose
    texture is [None] and whose colour channels are all 0. *)
Lemma depth_entry_fields_witness :
  exists fields,
    depth_entry sample_table
      (VDict [depth_interval 0 10;
              ("texture", VNone);
              ("rockFragmentVolume", VStr "VOLUME_1_15");
              ("colorHue", VInt 0);
              ("colorValue", VInt 0);
              ("colorChroma", VInt 0)]) = Ok (VDict fields)
    /\ assoc "texture" fields = None
    /\ assoc "rockFragmentVolume" fields = Some (VStr "VOLUME_1_15")
    /\ assoc "colorLAB" fields = Some (lab_dict (0 # 1, 0 # 1, 0 # 1)%Q).
Proof.
  destruct (depth_entry_fields sample_table
              [depth_interval 0 10;
               ("texture", VNone);
               ("rockFragmentVolume", VStr "VOLUME_1_15");
               ("colorHue", VInt 0);
               ("colorValue", VInt 0);
               ("colorChroma", VInt 0)] eq_refl)
    as (fields & He & _ & Ht & Hr & Hc).
  exists fields. split; [exact He|]. split; [|split].
  - destruct (assoc "texture" fields) as [t|]; [|reflexivity].
    destruct (proj1 (Ht t) eq_refl) as [<- E]. discriminate E.
  - apply Hr. split; reflexivity.
  - apply Hc. repeat (split; [reflexivity|]).
    exists (0 # 1, 0 # 1, 0 # 1)%Q. split; [vm_compute|]; reflexivity.
Defined.

(** C9, witness: the sample site without its latitude. *)
Lemma missing_coordinates_short_circuit_witness :
  fetch_soil_id sample_nrcs sample_blm sample_world
    (VDict [("id", VStr "site-1"); ("longitude", VFloat (184 # 5))])
  = (Ok (VDict [("error", VStr "Site missing latitude or longitude")]), []).
Proof.
  exact (missing_coordinates_short_circuit sample_nrcs sample_blm sample_world
           [("id", VStr "site-1"); ("longitude", VFloat (184 # 5))]
           eq_refl (or_introl eq_refl)).
Defined.

(** C9, counterexample: a site without coordinates whose answer is in
    the cache gets the cached answer, not the error mapping. *)
Lemma cached_site_without_coordinates :
  field [("id", VStr "site-2")] "latitude" = VNone
  /\ field [("id", VStr "site-2")] "longitude" = VNone
  /\ fetch_soil_id sample_nrcs sample_blm sample_cached_world
       (VDict [("id", VStr "site-2")]) = (Ok sample_answer, [])
  /\ fst (fetch_soil_id sample_nrcs sample_blm sample_cached_world
            (VDict [("id", VStr "site-2")]))
     <> Ok (VDict [("error", VStr "Site missing latitude or longitude")]).
Proof.
  split; [reflexivity|]. split; [reflexivity|].
  split; [vm_compute; reflexivity|]. vm_compute. discriminate.
Qed.

(** C10, witness: a site on the equator is rejected, and the cached
    answer of a site is returned though it has no coordinates. *)
Lemma coordinate_check_is_truthiness_witness :
  fetch_soil_id sample_nrcs sample_blm sample_world
    (VDict [("id", VStr "site-1"); ("latitude", VFloat (0 # 1));
            ("longitude", VFloat (184 # 5))])
  = (Ok missing_coordinates, [])
  /\ fetch_soil_id sample_nrcs sample_blm sample_cached_world
       (VDict [("id", VStr "site-2")]) = (Ok sample_answer, []).
Proof.
  split.
  - apply (proj1 (coordinate_check_is_truthiness sample_nrcs sample_blm sample_world
                    [("id", VStr "site-1"); ("latitude", VFloat (0 # 1));
                     ("longitude", VFloat (184 # 5))])
             eq_refl eq_refl eq_refl).
    reflexivity.
  - apply (proj2 (coordinate_check_is_truthiness sample_nrcs sample_blm
                    sample_cached_world [("id", VStr "site-2")])).
    vm_compute. reflexivity.
Defined.

(** * Further properties *)

(** ** [depth_helpers.py] *)

(** X1: [depth_key] reads back, from the intervals built from a table
    of defaults, the start and end of each row, in the order of the
    rows. *)
Theorem build_depth_intervals_keys (rows : list (Z * Z)) :
  mapM depth_key (_build_depth_intervals rows)
  = Ok (map (fun d => (VInt (fst d), VInt (snd d))) rows).
Proof.
  induction rows as [|d rows IH]; [reflexivity|].
  unfold _build_depth_intervals in *. cbn [map mapM].
  rewrite IH. reflexivity.
Qed.

Lemma truthy_py_or (a b : value) : truthy b = true -> truthy (py_or a b) = true.
Proof. unfold py_or. intros H. destruct (truthy a) eqn:E; assumption. Qed.

(** X2: whenever [get_effective_preset] returns, it returns a truthy
    value, never [None] nor an empty string; and it returns [CUSTOM]
    only for a site with a project. *)
Theorem get_effective_preset_result (site v : value) :
  get_effective_preset site = Ok v ->
  truthy v = true
  /\ (eq_str v PRESET_CUSTOM = true ->
      exists d, site = VDict d /\ truthy (field d "project") = true).
Proof.
  destruct site as [| | | | | |d]; try discriminate.
  unfold get_effective_preset. rewrite get_field. cbn [bind].
  destruct (truthy (field d "project")) eqn:Hp.
  - destruct (get (field d "project") "soilSettings" VNone) as [ss|]; [|discriminate].
    cbn [bind].
    destruct (get (py_or ss (VDict [])) "depthIntervalPreset" VNone) as [p|];
      [|discriminate].
    cbn [bind]. intros [= <-]. split; [now apply truthy_py_or|].
    intros _. now exists d.
  - destruct (get (VDict d) "soilData" (VDict [])) as [sd|]; [|discriminate].
    cbn [bind].
    destruct (get sd "depthIntervalPreset" VNone) as [p|]; [|discriminate].
    cbn [bind]. intros [= <-]. split.
    + destruct (eq_str p PRESET_CUSTOM); [reflexivity | now apply truthy_py_or].
    + rewrite site_preset_not_custom. discriminate.
Qed.

(** X2, witness: the sample site. *)
Lemma get_effective_preset_result_witness :
  truthy (VStr "NRCS") = true
  /\ (eq_str (VStr "NRCS") PRESET_CUSTOM = true ->
      exists d, sample_site = VDict d /\ truthy (field d "project") = true).
Proof. exact (get_effective_preset_result sample_site (VStr "NRCS") eq_refl). Defined.

Section NullSoilData.

Variable NRCS : list (Z * Z).
Variable BLM : list (Z * Z).

(** X3: the default of [site.get("soilData", {})] stands in for a
    missing key only: on a site whose [soilData] is [None],
    [get_visible_intervals] raises, and what it raises when the site
    has no project is [AttributeError]. *)
Theorem get_visible_intervals_null_soil_data (d : list (string * value)) :
  assoc "soilData" d = Some VNone ->
  (exists e, get_visible_intervals NRCS BLM (VDict d) = Raise e)
  /\ (truthy (field d "project") = false ->
      get_visible_intervals NRCS BLM (VDict d) = Raise AttributeError).
Proof.
  intros Hsd.
  assert (Hget : get (VDict d) "soilData" (VDict []) = Ok VNone).
  { cbn [get]. now rewrite Hsd. }
  split.
  - unfold get_visible_intervals.
    destruct (get_effective_preset (VDict d)) as [eff|e]; [|now exists e].
    cbn [bind].
    destruct (get_preset_intervals NRCS BLM eff (VDict d)) as [pis|e]; [|now exists e].
    cbn [bind]. destruct (py_iter pis) as [l|e]; [|now exists e].
    cbn [bind]. rewrite Hget. cbn. now exists AttributeError.
  - intros Hp. unfold get_visible_intervals, get_effective_preset.
    rewrite get_field. cbn [bind]. rewrite Hp, Hget. reflexivity.
Qed.

End NullSoilData.

(** X3, witness: a site whose soil data are [None]. *)
Lemma get_visible_intervals_null_soil_data_witness :
  get_visible_intervals sample_nrcs sample_blm
    (VDict [("id", VStr "site-3"); ("soilData", VNone); ("project", VNone)])
  = Raise AttributeError.
Proof.
  exact (proj2 (get_visible_intervals_null_soil_data sample_nrcs sample_blm
                  [("id", VStr "site-3"); ("soilData", VNone); ("project", VNone)]
                  eq_refl) eq_refl).
Defined.

(** ** The decoding of the hue *)

Lemma Qfloor_unique (x : Q) (n : Z) :
  (inject_Z n <= x)%Q -> (x < inject_Z (n + 1))%Q -> Qfloor x = n.
Proof.
  intros Hle Hlt.
  assert (H1 : n <= Qfloor x).
  { rewrite <- (Qfloor_Z n). now apply Qfloor_resp_le. }
  assert (H2 : Qfloor x < n + 1).
  { rewrite Zlt_Qlt. eapply Qle_lt_trans; [apply Qfloor_le | exact Hlt]. }
  lia.
Qed.

Lemma floordiv10_unique (x : Q) (i : Z) :
  (inject_Z (10 * i) <= x)%Q -> (x < inject_Z (10 * i) + 10)%Q -> floordiv10 x = i.
Proof.
  intros Hle Hlt. unfold floordiv10. apply Qfloor_unique.
  - rewrite inject_Z_mult in Hle. change (inject_Z 10) with 10%Q in Hle.
    apply Qle_shift_div_l; [reflexivity|]. lra.
  - rewrite inject_Z_plus. rewrite inject_Z_mult in Hlt.
    change (inject_Z 10) with 10%Q in Hlt. change (inject_Z 1) with 1%Q.
    apply Qlt_shift_div_r; [reflexivity|]. lra.
Qed.

Lemma mod10_eq (x : Q) (i : Z) :
  floordiv10 x = i -> (mod10 x == x - inject_Z (10 * i))%Q.
Proof.
  intros H. unfold mod10. rewrite H, inject_Z_mult.
  change (inject_Z 10) with 10%Q. reflexivity.
Qed.

(** [round] gives the integer that is less than a half away. *)
Lemma round_half_even_near (x : Q) (k : Z) :
  (inject_Z k - (1 # 2) < x)%Q -> (x < inject_Z k + (1 # 2))%Q ->
  round_half_even x = k.
Proof.
  intros Hlo Hhi. unfold round_half_even.
  pose proof (Qfloor_le x) as Hf1. pose proof (Qlt_floor x) as Hf2.
  rewrite inject_Z_plus in Hf2. change (inject_Z 1) with 1%Q in Hf2.
  assert (Hk : Qfloor x = k \/ k = Qfloor x + 1).
  { assert (H1 : Qfloor x < k + 1).
    { rewrite Zlt_Qlt, inject_Z_plus. change (inject_Z 1) with 1%Q. lra. }
    assert (H2 : k < Qfloor x + 2).
    { rewrite Zlt_Qlt, inject_Z_plus. change (inject_Z 2) with 2%Q. lra. }
    lia. }
  destruct Hk as [Hk | Hk].
  - rewrite Hk.
    assert (Hc : (x - inject_Z k ?= 1 # 2)%Q = Lt) by (rewrite <- Qlt_alt; lra).
    now rewrite Hc.
  - subst k. rewrite inject_Z_plus in Hlo. change (inject_Z 1) with 1%Q in Hlo.
    assert (Hc : (x - inject_Z (Qfloor x) ?= 1 # 2)%Q = Gt) by (rewrite <- Qgt_alt; lra).
    now rewrite Hc.
Qed.

Lemma round_half_even_comp (x y : Q) :
  (x == y)%Q -> round_half_even x = round_half_even y.
Proof.
  intros H. unfold round_half_even. rewrite (Qfloor_comp _ _ H).
  assert (Hc : (x - inject_Z (Qfloor y) ?= 1 # 2)%Q = (y - inject_Z (Qfloor y) ?= 1 # 2)%Q).
  { apply Qcompare_comp; [now rewrite H | reflexivity]. }
  now rewrite Hc.
Qed.

(** The rounding stays between integer bounds. *)
Lemma round_half_even_bounds (x : Q) (a b : Z) :
  (inject_Z a <= x)%Q -> (x < inject_Z b)%Q -> a <= round_half_even x <= b.
Proof.
  intros Ha Hb. unfold round_half_even.
  assert (H1 : a <= Qfloor x).
  { rewrite <- (Qfloor_Z a). now apply Qfloor_resp_le. }
  assert (H2 : Qfloor x < b).
  { rewrite Zlt_Qlt. eapply Qle_lt_trans; [apply Qfloor_le | exact Hb]. }
  destruct (x - inject_Z (Qfloor x) ?= 1 # 2)%Q; [destruct (Z.even (Qfloor x))| |]; lia.
Qed.

Lemma mod10_range (x : Q) : (0 <= mod10 x)%Q /\ (mod10 x < 10)%Q.
Proof.
  unfold mod10, floordiv10.
  pose proof (Qfloor_le (x / 10)) as H1. pose proof (Qlt_floor (x / 10)) as H2.
  rewrite inject_Z_plus in H2. change (inject_Z 1) with 1%Q in H2.
  assert (Hx : (x == 10 * (x / 10))%Q) by (field; discriminate).
  split; lra.
Qed.

(** The sub-step is one of 0, 1, 2, 3 and 4. *)
Lemma substep_of_range (x : Q) : 0 <= substep_of x <= 4.
Proof.
  unfold substep_of. destruct (mod10_range x) as [H0 H1].
  apply round_half_even_bounds.
  - change (inject_Z 0) with 0%Q. apply Qle_shift_div_l; [reflexivity|]. lra.
  - change (inject_Z 4) with 4%Q. apply Qlt_shift_div_r; [reflexivity|]. lra.
Qed.

Lemma hue_string_eval (h : value) (q : Q) :
  num_of h = Some q ->
  hue_string h
  = (let hue := if Qeq_bool q 100 then 0%Q else q in
     let* name :=
       py_index _HUE_NAMES
         (if substep_of hue =? 0 then (floordiv10 hue + 9) mod 10 else floordiv10 hue) in
     Ok (format_g_halves ((if substep_of hue =? 0 then 4 else substep_of hue) * 5)
         +:+ name)).
Proof. intros H. unfold hue_string, py_number. now rewrite H. Qed.

Lemma py_index_hue_nth (i : Z) :
  0 <= i <= 9 -> py_index _HUE_NAMES i = Ok (nth (Z.to_nat i) _HUE_NAMES "").
Proof.
  intros Hi.
  assert (H : i = 0 \/ i = 1 \/ i = 2 \/ i = 3 \/ i = 4 \/ i = 5 \/ i = 6 \/ i = 7
              \/ i = 8 \/ i = 9) by lia.
  repeat (destruct H as [-> | H]; [reflexivity|]). now subst i.
Qed.

Lemma py_index_hue_out (i : Z) :
  i < -10 \/ 10 <= i -> py_index _HUE_NAMES i = Raise IndexError.
Proof.
  intros Hi. unfold py_index.
  change (Z.of_nat (length _HUE_NAMES)) with 10. cbv zeta.
  destruct (i <? 0) eqn:E.
  - apply Z.ltb_lt in E.
    assert (H : (0 <=? i + 10) = false) by (apply Z.leb_gt; lia).
    now rewrite H.
  - apply Z.ltb_ge in E.
    assert (H : (i <? 10) = false) by (apply Z.ltb_ge; lia).
    rewrite H. now rewrite andb_false_r.
Qed.

Lemma substep_near (x : Q) (i k : Z) :
  floordiv10 x = i ->
  ((inject_Z k - (1 # 2)) * (5 # 2) < x - inject_Z (10 * i))%Q ->
  (x - inject_Z (10 * i) < (inject_Z k + (1 # 2)) * (5 # 2))%Q ->
  substep_of x = k.
Proof.
  intros Hi Hlo Hhi. unfold substep_of. apply round_half_even_near.
  - apply Qlt_shift_div_l; [reflexivity|]. now rewrite (mod10_eq x i Hi).
  - apply Qlt_shift_div_r; [reflexivity|]. now rewrite (mod10_eq x i Hi).
Qed.

Lemma Z_bounds_Q (a n b : Z) :
  a <= n <= b -> (inject_Z a <= inject_Z n)%Q /\ (inject_Z n <= inject_Z b)%Q.
Proof. intros [H1 H2]. split; now rewrite <- Zle_Qle. Qed.

Lemma Qeq_bool_false_lt (q c : Q) : (q < c)%Q -> Qeq_bool q c = false.
Proof.
  intros H. destruct (Qeq_bool q c) eqn:E; [|reflexivity].
  apply Qeq_bool_iff in E. rewrite E in H. now apply Qlt_irrefl in H.
Qed.

Lemma Qeq_bool_false_gt (q c : Q) : (c < q)%Q -> Qeq_bool q c = false.
Proof.
  intros H. destruct (Qeq_bool q c) eqn:E; [|reflexivity].
  apply Qeq_bool_iff in E. rewrite E in H. now apply Qlt_irrefl in H.
Qed.

(** A hue whose family index is [i] and whose sub-step is [k]. *)
Lemma hue_string_step (h : value) (q : Q) (i k : Z) :
  num_of h = Some q -> Qeq_bool q 100 = false ->
  floordiv10 q = i -> substep_of q = k -> 0 <= i <= 9 -> 1 <= k <= 4 ->
  hue_string h = Ok (munsell_hue i k).
Proof.
  intros Hq H100 Hi Hk Hir Hkr. rewrite (hue_string_eval h q Hq). cbv zeta.
  rewrite H100, Hi, Hk.
  assert (E : (k =? 0) = false) by (apply Z.eqb_neq; lia).
  rewrite E, (py_index_hue_nth i Hir). reflexivity.
Qed.

(** A hue that rounds to sub-step 0 of the family after family [i]. *)
Lemma hue_string_rollback (h : value) (q : Q) (i : Z) :
  num_of h = Some q -> Qeq_bool q 100 = false ->
  floordiv10 q = i + 1 -> substep_of q = 0 -> 0 <= i <= 9 ->
  hue_string h = Ok (munsell_hue i 4).
Proof.
  intros Hq H100 Hi Hk Hir. rewrite (hue_string_eval h q Hq). cbv zeta.
  rewrite H100, Hi, Hk. cbn [Z.eqb].
  assert (E : (i + 1 + 9) mod 10 = i).
  { replace (i + 1 + 9) with (i + 1 * 10) by lia.
    rewrite Z.mod_add by lia. apply Z.mod_small. lia. }
  rewrite E, (py_index_hue_nth i Hir). reflexivity.
Qed.

(** X4: a hue of [[0, 100]] is decoded to the nearest step of the
    scale: less than 1.25 away from the hue [10 i + 2.5 k] of step [k]
    of family [i], it gives the notation of that step and family. *)
Theorem hue_string_nearest (h : value) (q : Q) (i k : Z) :
  num_of h = Some q -> 0 <= i <= 9 -> 1 <= k <= 4 ->
  (0 <= q)%Q -> (q <= 100)%Q ->
  (hue100 i k - (5 # 4) < q)%Q -> (q < hue100 i k + (5 # 4))%Q ->
  hue_string h = Ok (munsell_hue i k).
Proof.
  intros Hq Hi Hk H0 H100 Hlo Hhi. unfold hue100 in *.
  destruct (Z_bounds_Q 0 i 9 Hi) as [Hi0 Hi9].
  destruct (Z_bounds_Q 1 k 4 Hk) as [Hk1 Hk4].
  change (inject_Z 0) with 0%Q in *. change (inject_Z 9) with 9%Q in *.
  change (inject_Z 1) with 1%Q in *. change (inject_Z 4) with 4%Q in *.
  assert (Hm : (inject_Z (10 * i) == 10 * inject_Z i)%Q)
    by (rewrite inject_Z_mult; reflexivity).
  destruct (Z.eq_dec k 4) as [-> | Hk3].
  - change (inject_Z 4) with 4%Q in *.
    destruct (Qlt_le_dec q (inject_Z (10 * i) + 10)) as [Hin | Hout].
    + apply (hue_string_step h q i 4); [exact Hq | | | | exact Hi | lia].
      * apply Qeq_bool_false_lt. lra.
      * apply floordiv10_unique; lra.
      * apply (substep_near q i 4); [apply floordiv10_unique; lra | |];
          change (inject_Z 4) with 4%Q; lra.
    + destruct (Qeq_bool q 100) eqn:E100.
      * apply Qeq_bool_iff in E100.
        assert (i = 9).
        { assert (Hgt : (inject_Z 8 < inject_Z i)%Q)
            by (change (inject_Z 8) with 8%Q; lra).
          rewrite <- Zlt_Qlt in Hgt. lia. }
        subst i. rewrite (hue_string_eval h q Hq). cbv zeta.
        assert (Eb : Qeq_bool q 100 = true) by now apply Qeq_bool_iff.
        rewrite Eb. reflexivity.
      * assert (Hlt : (q < 100)%Q).
        { apply Qeq_bool_neq in E100. apply Qle_lteq in H100 as [?|?];
            [assumption | contradiction]. }
        apply (hue_string_rollback h q i); [exact Hq | exact E100 | | | exact Hi].
        -- apply floordiv10_unique; rewrite inject_Z_mult, inject_Z_plus;
             change (inject_Z 10) with 10%Q; change (inject_Z 1) with 1%Q; lra.
        -- apply (substep_near q (i + 1) 0).
           ++ apply floordiv10_unique; rewrite inject_Z_mult, inject_Z_plus;
                change (inject_Z 10) with 10%Q; change (inject_Z 1) with 1%Q; lra.
           ++ rewrite inject_Z_mult, inject_Z_plus.
              change (inject_Z 10) with 10%Q. change (inject_Z 1) with 1%Q.
              change (inject_Z 0) with 0%Q. lra.
           ++ rewrite inject_Z_mult, inject_Z_plus.
              change (inject_Z 10) with 10%Q. change (inject_Z 1) with 1%Q.
              change (inject_Z 0) with 0%Q. lra.
  - assert (Hk3' : (inject_Z k <= 3)%Q).
    { change 3%Q with (inject_Z 3). rewrite <- Zle_Qle. lia. }
    apply (hue_string_step h q i k); [exact Hq | | | | exact Hi | exact Hk].
    + apply Qeq_bool_false_lt. lra.
    + apply floordiv10_unique; lra.
    + apply (substep_near q i k); [apply floordiv10_unique; lra | |]; lra.
Qed.

(** X4, witness: hue 34.5 is nearest to step 5 of the family [GY]. *)
Lemma hue_string_nearest_witness : hue_string (VFloat (69 # 2)) = Ok "5GY".
Proof.
  refine (hue_string_nearest (VFloat (69 # 2)) (69 # 2) 3 2 eq_refl _ _ _ _ _ _);
    [lia | lia | | | |]; unfold hue100, Qlt, Qle; cbn; lia.
Defined.

Lemma hue_in_range_normal (h : value) :
  hue_in_range h = true ->
  exists q, num_of h = Some q
            /\ (0 <= (if Qeq_bool q 100 then 0 else q))%Q
            /\ ((if Qeq_bool q 100 then 0 else q) < 100)%Q.
Proof.
  unfold hue_in_range. destruct (num_of h) as [q|]; [|discriminate].
  intros H. apply andb_true_iff in H as [H0 H1]. apply Qle_bool_iff in H0, H1.
  exists q. split; [reflexivity|]. destruct (Qeq_bool q 100) eqn:E.
  - split; [apply Qle_refl | reflexivity].
  - split; [assumption|]. apply Qeq_bool_neq in E.
    apply Qle_lteq in H1 as [?|?]; [assumption | contradiction].
Qed.

(** X5: a hue of [[0, 100]] is always decoded to one of the forty
    notations of the scale: a family of [_HUE_NAMES] with one of the
    steps 2.5, 5, 7.5 and 10, never a step 0. *)
Theorem hue_string_notation (h : value) :
  hue_in_range h = true ->
  exists i k, 0 <= i <= 9 /\ 1 <= k <= 4 /\ hue_string h = Ok (munsell_hue i k).
Proof.
  intros Hr. destruct (hue_in_range_normal h Hr) as (q & Hq & H0 & H100).
  rewrite (hue_string_eval h q Hq). cbv zeta.
  set (hue := if Qeq_bool q 100 then 0%Q else q) in *.
  pose proof (floordiv10_range hue H0 H100) as Hj.
  pose proof (substep_of_range hue) as Hs.
  destruct (substep_of hue =? 0) eqn:E.
  - exists ((floordiv10 hue + 9) mod 10), 4.
    assert (Hm : 0 <= (floordiv10 hue + 9) mod 10 < 10) by (apply Z.mod_pos_bound; lia).
    split; [lia|]. split; [lia|].
    rewrite py_index_hue_nth by lia. reflexivity.
  - apply Z.eqb_neq in E. exists (floordiv10 hue), (substep_of hue).
    split; [lia|]. split; [lia|].
    rewrite py_index_hue_nth by lia. reflexivity.
Qed.

(** X5, witness: hue 100. *)
Lemma hue_string_notation_witness :
  exists i k, 0 <= i <= 9 /\ 1 <= k <= 4 /\ hue_string (VInt 100) = Ok (munsell_hue i k).
Proof. exact (hue_string_notation (VInt 100) eq_refl). Defined.

Lemma Qfloor_lower (x : Q) (n : Z) : (inject_Z n <= x)%Q -> n <= Qfloor x.
Proof. intros H. rewrite <- (Qfloor_Z n). now apply Qfloor_resp_le. Qed.

Lemma Qfloor_upper (x : Q) (n : Z) : (x < inject_Z n)%Q -> Qfloor x < n.
Proof.
  intros H. rewrite Zlt_Qlt. eapply Qle_lt_trans; [apply Qfloor_le | exact H].
Qed.

Lemma floordiv10_high (q : Q) : (100 < q)%Q -> 10 <= floordiv10 q.
Proof.
  intros H. unfold floordiv10. apply Qfloor_lower.
  change (inject_Z 10) with 10%Q.
  apply Qle_shift_div_l; [reflexivity|]. lra.
Qed.

Lemma floordiv10_low (q : Q) : (q < -100)%Q -> floordiv10 q < -10.
Proof.
  intros H. unfold floordiv10. apply Qfloor_upper.
  change (inject_Z (-10)) with (-10 # 1)%Q.
  apply Qlt_shift_div_r; [reflexivity|]. lra.
Qed.

Lemma hue_out_of_range_cases (h : value) (q : Q) :
  num_of h = Some q -> (100 < q)%Q \/ (q < -100)%Q ->
  (substep_of q <> 0 ->
   hue_string h = Raise IndexError
   /\ forall table v c vz cz,
        table_empty table = false -> py_round v = Ok vz -> py_round c = Ok cz ->
        cz <> 0 -> munsell_to_lab table h v c = Raise IndexError)
  /\ (substep_of q = 0 ->
      exists i, 0 <= i <= 9 /\ hue_string h = Ok (munsell_hue i 4)).
Proof.
  intros Hq Hout.
  assert (H100 : Qeq_bool q 100 = false).
  { destruct Hout; [apply Qeq_bool_false_gt | apply Qeq_bool_false_lt]; lra. }
  assert (Hj : floordiv10 q < -10 \/ 10 <= floordiv10 q).
  { destruct Hout as [H | H]; [right; now apply floordiv10_high
                              | left; now apply floordiv10_low]. }
  pose proof (hue_string_eval h q Hq) as He. cbv zeta in He. rewrite H100 in He.
  split.
  - intros Hs. apply Z.eqb_neq in Hs. rewrite Hs in He.
    rewrite (py_index_hue_out _ Hj) in He. cbn [bind] in He.
    split; [exact He|].
    intros table v c vz cz Ht Hv Hc Hz. unfold munsell_to_lab.
    rewrite Ht, Hc, Hv. cbn [bind]. apply Z.eqb_neq in Hz. now rewrite Hz, He.
  - intros Hs. rewrite Hs in He. cbn [Z.eqb] in He.
    exists ((floordiv10 q + 9) mod 10).
    assert (Hm : 0 <= (floordiv10 q + 9) mod 10 < 10) by (apply Z.mod_pos_bound; lia).
    split; [lia|]. rewrite He, py_index_hue_nth by lia. reflexivity.
Qed.

(** X6: outside [[-100, 100]] the decoding raises [IndexError], and
    with it [munsell_to_lab] for a chromatic colour, unless the hue
    rounds to the boundary of a family: the roll back then brings the
    index back into the list and a step 10 is returned. *)
Theorem hue_string_out_of_range (h : value) (q : Q) :
  num_of h = Some q -> (100 < q)%Q \/ (q < -100)%Q ->
  (substep_of q <> 0 ->
   hue_string h = Raise IndexError
   /\ forall table v c vz cz,
        table_empty table = false -> py_round v = Ok vz -> py_round c = Ok cz ->
        cz <> 0 -> munsell_to_lab table h v c = Raise IndexError)
  /\ (substep_of q = 0 ->
      exists i, 0 <= i <= 9 /\ hue_string h = Ok (munsell_hue i 4)).
Proof. exact (hue_out_of_range_cases h q). Qed.

(** X6, witness: hue 105 raises, hue 110 is read as [10R]. *)
Lemma hue_string_out_of_range_witness :
  hue_string (VInt 105) = Raise IndexError
  /\ exists i, 0 <= i <= 9 /\ hue_string (VInt 110) = Ok (munsell_hue i 4).
Proof.
  split.
  - refine (proj1 (proj1 (hue_string_out_of_range (VInt 105) (inject_Z 105) eq_refl
                            (or_introl _)) _)).
    + reflexivity.
    + vm_compute. discriminate.
  - refine (proj2 (hue_string_out_of_range (VInt 110) (inject_Z 110) eq_refl
                     (or_introl _)) _); reflexivity.
Defined.

Lemma py_index_hue_negative (i : Z) :
  -10 <= i < 0 -> py_index _HUE_NAMES i = py_index _HUE_NAMES (i + 10).
Proof.
  intros Hi.
  assert (H : i = -10 \/ i = -9 \/ i = -8 \/ i = -7 \/ i = -6 \/ i = -5 \/ i = -4
              \/ i = -3 \/ i = -2 \/ i = -1) by lia.
  repeat (destruct H as [-> | H]; [reflexivity|]). now subst i.
Qed.

(** X7: the scale is read cyclically: hue 100 is decoded as hue 0, and
    a negative integer hue down to -100 as the hue 100 above it, the
    negative family index counting from the end of [_HUE_NAMES]. *)
Theorem hue_string_wraps :
  (forall h q, num_of h = Some q -> (q == 100)%Q -> hue_string h = hue_string (VInt 0))
  /\ (forall n : Z, -100 <= n < 0 ->
        hue_string (VInt n) = hue_string (VInt (n + 100))).
Proof.
  split.
  - intros h q Hq H100. rewrite (hue_string_eval h q Hq). cbv zeta.
    apply Qeq_bool_iff in H100. rewrite H100. reflexivity.
  - intros n Hn.
    rewrite (hue_string_eval (VInt n) (inject_Z n) eq_refl).
    rewrite (hue_string_eval (VInt (n + 100)) (inject_Z (n + 100)) eq_refl). cbv zeta.
    set (q := inject_Z n). set (q' := inject_Z (n + 100)).
    assert (Hq' : (q' == q + 100)%Q).
    { subst q q'. rewrite inject_Z_plus. reflexivity. }
    assert (Hlo : (-100 <= q)%Q).
    { subst q. change (-100)%Q with (inject_Z (-100)). rewrite <- Zle_Qle. lia. }
    assert (Hhi : (q < 0)%Q).
    { subst q. change 0%Q with (inject_Z 0). rewrite <- Zlt_Qlt. lia. }
    rewrite (Qeq_bool_false_lt q 100) by lra.
    rewrite (Qeq_bool_false_lt q' 100) by lra.
    set (j := floordiv10 q).
    assert (Hx : (q == 10 * (q / 10))%Q) by (field; discriminate).
    assert (Hj : -10 <= j < 0).
    { subst j. unfold floordiv10. split.
      - apply Qfloor_lower. change (inject_Z (-10)) with (-10 # 1)%Q. lra.
      - apply Qfloor_upper. change (inject_Z 0) with 0%Q. lra. }
    assert (Hj' : floordiv10 q' = j + 10).
    { pose proof (Qfloor_le (q / 10)) as H1. pose proof (Qlt_floor (q / 10)) as H2.
      fold (floordiv10 q) in H1, H2. fold j in H1, H2.
      rewrite inject_Z_plus in H2. change (inject_Z 1) with 1%Q in H2.
      apply floordiv10_unique; rewrite inject_Z_mult, inject_Z_plus;
        change (inject_Z 10) with 10%Q; lra. }
    assert (Hs : substep_of q' = substep_of q).
    { unfold substep_of. apply round_half_even_comp. unfold mod10.
      rewrite Hj'. fold j. rewrite inject_Z_plus, Hq'. change (inject_Z 10) with 10%Q.
      field. }
    rewrite Hj', Hs. fold j.
    replace ((j + 10 + 9) mod 10) with ((j + 9) mod 10)
      by (replace (j + 10 + 9) with (j + 9 + 1 * 10) by lia;
          now rewrite Z.mod_add by lia).
    destruct (substep_of q =? 0); [reflexivity|].
    now rewrite py_index_hue_negative.
Qed.

(** X7, witness: hue 100 given as a float, and hue -5. *)
Lemma hue_string_wraps_witness :
  hue_string (VFloat (200 # 2)) = hue_string (VInt 0)
  /\ hue_string (VInt (-5)) = hue_string (VInt (-5 + 100)).
Proof.
  split.
  - exact (proj1 hue_string_wraps (VFloat (200 # 2)) (200 # 2) eq_refl eq_refl).
  - apply (proj2 hue_string_wraps (-5)). lia.
Defined.

(** ** The loading of the lookup table *)

Section LoaderFacts.

Variable py_int : string -> result Z.
Variable py_float : string -> result Q.

(** X8: the table is loaded once: after a call that returned, the
    global holds the table returned, and every later call returns it
    without opening a file, whatever the files have become. *)
Theorem load_table_once (env : loader_env) (global global' : option lab_table)
    (table : lab_table) (opened : list string) :
  _load_munsell_lab_table py_int py_float env global = (Ok table, global', opened) ->
  global' = Some table
  /\ forall env', _load_munsell_lab_table py_int py_float env' global'
                  = (Ok table, global', []).
Proof.
  unfold _load_munsell_lab_table. intros H.
  assert (Hg : global' = Some table).
  { destruct global as [t|].
    - injection H as <- <- _. reflexivity.
    - destruct (files env (table_path env)) as [rows|].
      + destruct (load_rows py_int py_float rows ∅); [|discriminate H].
        injection H as <- <- _. reflexivity.
      + injection H as <- <- _. reflexivity. }
  split; [exact Hg|]. intros env'. now rewrite Hg.
Qed.

(** X9: when the data file is not found the empty table is kept: the
    first call opens the path once, and every conversion after it
    returns absent without opening a file, even when the file has
    appeared. *)
Theorem missing_file_degrades (env : loader_env) :
  files env (table_path env) = None ->
  _load_munsell_lab_table py_int py_float env None = (Ok ∅, Some ∅, [table_path env])
  /\ forall env' h v c,
       munsell_to_lab_call py_int py_float env' (Some ∅) h v c
       = (Ok None, Some ∅, []).
Proof.
  intros H. split.
  - unfold _load_munsell_lab_table. now rewrite H.
  - intros env' h v c. reflexivity.
Qed.

Lemma load_rows_lookup (rows : list csv_row)
    (entries : list ((string * Z * Z) * (Q * Q * Q))) (table0 : lab_table) :
  mapM (parse_row py_int py_float) rows = Ok entries ->
  exists table,
    load_rows py_int py_float rows table0 = Ok table
    /\ forall key, table !! key
                   = match last_binding key entries with
                     | Some lab => Some lab
                     | None => table0 !! key
                     end.
Proof.
  revert entries table0. induction rows as [|row rows IH]; intros entries table0.
  - intros [= <-]. exists table0. split; reflexivity.
  - cbn [mapM load_rows].
    destruct (parse_row py_int py_float row) as [[k lab]|]; [|discriminate].
    cbn [bind fst snd].
    destruct (mapM (parse_row py_int py_float) rows) as [es|] eqn:Hes; [|discriminate].
    cbn [bind]. intros [= <-].
    destruct (IH es (<[k := lab]> table0) eq_refl) as (table & Hl & Hk).
    exists table. split; [exact Hl|]. intros key. rewrite Hk. cbn [last_binding].
    destruct (last_binding key es); [reflexivity|].
    destruct (decide (key = k)) as [-> | Hne].
    + apply lookup_insert_eq.
    + now apply lookup_insert_ne.
Qed.

(** X10: when every row of the file can be read, the table loaded
    binds the key of a row to the colour of the last row with that key,
    and has no other keys. *)
Theorem load_table_lookup (env : loader_env) (rows : list csv_row)
    (entries : list ((string * Z * Z) * (Q * Q * Q))) :
  files env (table_path env) = Some rows ->
  mapM (parse_row py_int py_float) rows = Ok entries ->
  exists table,
    _load_munsell_lab_table py_int py_float env None
    = (Ok table, Some table, [table_path env])
    /\ forall key, table !! key = last_binding key entries.
Proof.
  intros Hf He. destruct (load_rows_lookup rows entries ∅ He) as (table & Hl & Hk).
  exists table. split.
  - unfold _load_munsell_lab_table. now rewrite Hf, Hl.
  - intros key. rewrite Hk, lookup_empty. now destruct (last_binding key entries).
Qed.

Lemma load_rows_failure (good rest : list csv_row) (bad : csv_row)
    (entries : list ((string * Z * Z) * (Q * Q * Q))) (e : exn) (table0 : lab_table) :
  mapM (parse_row py_int py_float) good = Ok entries ->
  parse_row py_int py_float bad = Raise e ->
  load_rows py_int py_float (good ++ bad :: rest) table0 = Raise e.
Proof.
  revert entries table0. induction good as [|row good IH]; intros entries table0.
  - intros _ Hb. cbn [app load_rows]. now rewrite Hb.
  - cbn [mapM app load_rows].
    destruct (parse_row py_int py_float row) as [entry|]; [|discriminate].
    cbn [bind].
    destruct (mapM (parse_row py_int py_float) good) as [es|]; [|discriminate].
    intros _ Hb. now apply (IH es).
Qed.

(** X11: a row that cannot be read makes the load raise what reading
    that row raises; the rows after it are not read, and the global
    stays unset, so that the next call opens the file again. *)
Theorem load_table_failure (env : loader_env) (good rest : list csv_row) (bad : csv_row)
    (entries : list ((string * Z * Z) * (Q * Q * Q))) (e : exn) :
  files env (table_path env) = Some (good ++ bad :: rest) ->
  mapM (parse_row py_int py_float) good = Ok entries ->
  parse_row py_int py_float bad = Raise e ->
  _load_munsell_lab_table py_int py_float env None = (Raise e, None, [table_path env])
  /\ forall h v c,
       munsell_to_lab_call py_int py_float env None h v c
       = (Raise e, None, [table_path env]).
Proof.
  intros Hf Hg Hb.
  assert (H : _load_munsell_lab_table py_int py_float env None
              = (Raise e, None, [table_path env])).
  { unfold _load_munsell_lab_table.
    now rewrite Hf, (load_rows_failure good rest bad entries e ∅ Hg Hb). }
  split; [exact H|]. intros h v c. unfold munsell_to_lab_call. now rewrite H.
Qed.

End LoaderFacts.

(** X8, witness: the sample file, then no file. *)
Lemma load_table_once_witness :
  exists table,
    _load_munsell_lab_table sample_int sample_float sample_env None
    = (Ok table, Some table, ["Data/LandPKS_munsell_rgb_lab.csv"])
    /\ _load_munsell_lab_table sample_int sample_float sample_env_without_file
         (Some table) = (Ok table, Some table, []).
Proof.
  exists (match load_rows sample_int sample_float sample_rows ∅ with
          | Ok table => table
          | Raise _ => ∅
          end).
  assert (H : _load_munsell_lab_table sample_int sample_float sample_env None
              = (Ok (match load_rows sample_int sample_float sample_rows ∅ with
                     | Ok table => table
                     | Raise _ => ∅
                     end),
                 Some (match load_rows sample_int sample_float sample_rows ∅ with
                       | Ok table => table
                       | Raise _ => ∅
                       end),
                 ["Data/LandPKS_munsell_rgb_lab.csv"])).
  { vm_compute. reflexivity. }
  split; [exact H|].
  exact (proj2 (load_table_once sample_int sample_float sample_env None _ _ _ H)
           sample_env_without_file).
Defined.

(** X9, witness: the environment without the file. *)
Lemma missing_file_degrades_witness :
  munsell_to_lab_call sample_int sample_float sample_env (Some ∅)
    (VInt 5) (VInt 5) (VInt 1) = (Ok None, Some ∅, []).
Proof.
  exact (proj2 (missing_file_degrades sample_int sample_float
                  sample_env_without_file eq_refl)
           sample_env (VInt 5) (VInt 5) (VInt 1)).
Defined.

(** X10, witness: in the sample file the colour [5R 5/1] is given
    twice; the second row is the one found. *)
Lemma load_table_lookup_witness :
  exists table,
    _load_munsell_lab_table sample_int sample_float sample_env None
    = (Ok table, Some table, ["Data/LandPKS_munsell_rgb_lab.csv"])
    /\ table !! ("5R", 5, 1) = Some (51 # 1, 5 # 1, 2 # 1)%Q
    /\ table !! ("5R", 5, 2) = None.
Proof.
  destruct (load_table_lookup sample_int sample_float sample_env sample_rows
              (match mapM (parse_row sample_int sample_float) sample_rows with
               | Ok entries => entries
               | Raise _ => []
               end) eq_refl eq_refl) as (table & Hl & Hk).
  exists table. split; [exact Hl|]. rewrite !Hk. split; reflexivity.
Defined.

(** X11, witness: a file whose second row has no number for the value. *)
Lemma load_table_failure_witness :
  _load_munsell_lab_table sample_int sample_float sample_env_unreadable None
  = (Raise ValueError, None, ["m.csv"]).
Proof.
  exact (proj1 (load_table_failure sample_int sample_float sample_env_unreadable
                  [sample_row "5R" "5" "1" "51" "5" "2"]
                  [sample_row "N" "0" "0" "0" "0" "0"]
                  (sample_row "5R" "five" "1" "51" "5" "2")
                  [(("5R", 5, 1), (51 # 1, 5 # 1, 2 # 1)%Q)] ValueError
                  eq_refl eq_refl eq_refl)).
Defined.

(** *** [munsell_to_lab] as it is called *)

Section ConverterCall.

Variable py_int : string -> result Z.
Variable py_float : string -> result Q.

(** C5, as the code has it: once the loader has returned the table
    (already loaded, read from the file, or empty because the file is
    not found), [munsell_to_lab] returns for every hue of [[0, 100]]
    and every value and chroma that are numbers: absent at once when
    the table is empty, whatever the arguments, and otherwise the
    table's entry for the decoded hue string and the rounded value and
    chroma, which is absent when the table has no such entry. *)
Theorem munsell_to_lab_returns_once_loaded (env : loader_env)
    (global global' : option lab_table) (table : lab_table) (opened : list string) :
  _load_munsell_lab_table py_int py_float env global = (Ok table, global', opened) ->
  (forall h v c, table_empty table = true ->
     munsell_to_lab_call py_int py_float env global h v c = (Ok None, global', opened))
  /\ (forall h v c,
        hue_in_range h = true -> is_number v = true -> is_number c = true ->
        exists hs vz cz,
          py_round v = Ok vz /\ py_round c = Ok cz
          /\ (if cz =? 0 then hs = "N" else hue_string h = Ok hs)
          /\ munsell_to_lab_call py_int py_float env global h v c
             = (Ok (table !! (hs, vz, cz)), global', opened)
          /\ (table !! (hs, vz, cz) = None ->
              munsell_to_lab_call py_int py_float env global h v c
              = (Ok None, global', opened))).
Proof.
  intros Hl. split.
  - intros h v c He. unfold munsell_to_lab_call.
    now rewrite Hl, (munsell_to_lab_empty table h v c He).
  - intros h v c Hh Hv Hc.
    destruct (munsell_to_lab_total table h v c Hh Hv Hc)
      as (hs & vz & cz & H1 & H2 & H3 & H4).
    exists hs, vz, cz. repeat (split; [assumption|]).
    assert (Hm : munsell_to_lab_call py_int py_float env global h v c
                 = (Ok (table !! (hs, vz, cz)), global', opened)).
    { unfold munsell_to_lab_call. now rewrite Hl, H4. }
    split; [exact Hm|]. intros Hn. now rewrite Hm, Hn.
Qed.

End ConverterCall.

(** C5, witness: hue 35 with value 4.4 and chroma 2.5, first where the
    data file is not found, then with the sample table loaded, which
    does not have the colour. *)
Lemma munsell_to_lab_returns_once_loaded_witness :
  munsell_to_lab_call sample_int sample_float sample_env_without_file None
    (VInt 35) (VFloat (22 # 5)) (VFloat (5 # 2))
  = (Ok None, Some ∅, ["/srv/soil-id/munsell.csv"])
  /\ munsell_to_lab_call sample_int sample_float sample_env (Some sample_table)
       (VInt 35) (VFloat (22 # 5)) (VFloat (5 # 2))
     = (Ok None, Some sample_table, []).
Proof.
  split.
  - exact (proj1 (munsell_to_lab_returns_once_loaded sample_int sample_float
                    sample_env_without_file None (Some ∅) ∅
                    ["/srv/soil-id/munsell.csv"] eq_refl)
             (VInt 35) (VFloat (22 # 5)) (VFloat (5 # 2)) eq_refl).
  - destruct (proj2 (munsell_to_lab_returns_once_loaded sample_int sample_float
                       sample_env (Some sample_table) (Some sample_table)
                       sample_table [] eq_refl)
                (VInt 35) (VFloat (22 # 5)) (VFloat (5 # 2)) eq_refl eq_refl eq_refl)
      as (hs & vz & cz & Hv & Hc & Hs & _ & Hn).
    injection Hv as <-. injection Hc as <-.
    change (hue_string (VInt 35) = Ok hs) in Hs.
    assert (Hhs : hs = "5GY") by (vm_compute in Hs; congruence).
    subst hs. apply Hn. vm_compute. reflexivity.
Defined.

(** C5, counterexample: with a data file one row of which cannot be
    read, the call raises, for a hue in range and numbers for value and
    chroma: [int] refuses the cell, and only [FileNotFoundError] is
    caught. *)
Lemma munsell_to_lab_unreadable_row :
  hue_in_range (VInt 5) = true /\ is_number (VInt 5) = true
  /\ is_number (VInt 1) = true
  /\ munsell_to_lab_call sample_int sample_float sample_env_unreadable None
       (VInt 5) (VInt 5) (VInt 1) = (Raise ValueError, None, ["m.csv"])
  /\ ~ (forall env global h v c,
          hue_in_range h = true -> is_number v = true -> is_number c = true ->
          exists r global' opened,
            munsell_to_lab_call sample_int sample_float env global h v c
            = (Ok r, global', opened)).
Proof.
  repeat (split; [reflexivity|]).
  intros H.
  destruct (H sample_env_unreadable None (VInt 5) (VInt 5) (VInt 1)
              eq_refl eq_refl eq_refl) as (r & g & o & Hr).
  discriminate Hr.
Qed.

(** ** The cache of soil matching answers *)

Section CacheFacts.

Variable NRCS : list (Z * Z).
Variable BLM : list (Z * Z).

(** [fetch_soil_id] reads the world through the answer of the cache,
    the lookup table and the executor only. *)
Lemma fetch_soil_id_ext (w1 w2 : world) (site : value) :
  (forall site_id, get site "id" VNone = Ok site_id ->
                   cache_hit w1 site_id = cache_hit w2 site_id) ->
  _munsell_lab_table w1 = _munsell_lab_table w2 ->
  schema_execute w1 = schema_execute w2 ->
  fetch_soil_id NRCS BLM w1 site = fetch_soil_id NRCS BLM w2 site.
Proof.
  intros Hc Ht He.
  assert (Hr : soil_id_request NRCS BLM w1 site = soil_id_request NRCS BLM w2 site).
  { unfold soil_id_request.
    destruct (get site "id" VNone) as [site_id|]; [|reflexivity].
    cbn [bind]. now rewrite (Hc site_id eq_refl), Ht. }
  unfold fetch_soil_id. now rewrite Hr, He.
Qed.

(** X12: with the cache enabled, an answer stored for a site
    identifier is what [fetch_soil_id] returns, without a query, for
    every site whose truthy [id] has the same text, whatever was stored
    for it before and whatever the site's coordinates. *)
Theorem cache_then_fetch (w : world) (site_id data : value) (key : string)
    (d : list (string * value)) :
  _USE_SOIL_ID_CACHE w = true -> py_str site_id = Ok key ->
  truthy (field d "id") = true -> py_str (field d "id") = Ok key ->
  exists w', cache_soil_id w site_id data = Ok w'
             /\ fetch_soil_id NRCS BLM w' (VDict d) = (Ok data, []).
Proof.
  intros Hu Hk Ht Hs. unfold cache_soil_id. rewrite Hu, Hk. cbn [bind].
  eexists. split; [reflexivity|].
  unfold fetch_soil_id. rewrite (soil_id_request_cached NRCS BLM _ d data); [reflexivity|].
  unfold cache_hit. cbn [_USE_SOIL_ID_CACHE _soil_id_cache].
  rewrite Ht, Hs. cbn [andb bind]. now rewrite lookup_insert_eq.
Qed.

(** X13: storing an answer for one identifier changes nothing for a
    site whose [id] has another text. *)
Theorem cache_other_site (w w' : world) (site_id data : value) (key key' : string)
    (d : list (string * value)) :
  cache_soil_id w site_id data = Ok w' ->
  py_str site_id = Ok key -> py_str (field d "id") = Ok key' -> key' <> key ->
  fetch_soil_id NRCS BLM w' (VDict d) = fetch_soil_id NRCS BLM w (VDict d).
Proof.
  unfold cache_soil_id. intros Hw Hk Hk' Hne.
  destruct (_USE_SOIL_ID_CACHE w) eqn:Hu; [|now injection Hw as <-].
  rewrite Hk in Hw. cbn [bind] in Hw. injection Hw as <-.
  apply fetch_soil_id_ext; try reflexivity.
  intros sid Hsid. rewrite get_field in Hsid. injection Hsid as <-.
  unfold cache_hit. cbn [_USE_SOIL_ID_CACHE _soil_id_cache]. rewrite Hu, Hk'.
  destruct (truthy (field d "id")); cbn [andb bind]; [|reflexivity].
  now rewrite lookup_insert_ne by congruence.
Qed.

(** X14: once the cache is switched off, [cache_soil_id] stores
    nothing, and [fetch_soil_id] answers as if the cache were empty:
    the answers stored before are not returned. *)
Theorem cache_disabled (w : world) (enabled : value) :
  truthy enabled = false ->
  (forall site_id data,
     cache_soil_id (set_soil_id_cache_enabled w enabled) site_id data
     = Ok (set_soil_id_cache_enabled w enabled))
  /\ (forall site,
        fetch_soil_id NRCS BLM (set_soil_id_cache_enabled w enabled) site
        = fetch_soil_id NRCS BLM
            (clear_soil_id_cache (set_soil_id_cache_enabled w enabled)) site).
Proof.
  intros He. split.
  - intros site_id data. unfold cache_soil_id, set_soil_id_cache_enabled.
    cbn [_USE_SOIL_ID_CACHE]. now rewrite He.
  - intros site. apply fetch_soil_id_ext; try reflexivity.
    intros site_id _. unfold cache_hit, set_soil_id_cache_enabled, clear_soil_id_cache.
    cbn [_USE_SOIL_ID_CACHE]. now rewrite He.
Qed.

(** X15: after [clear_soil_id_cache] no stored answer is returned: a
    site is answered as with the cache switched off, while the switch
    itself is left as it was. *)
Theorem cache_cleared (w : world) (d : list (string * value)) (key : string) :
  py_str (field d "id") = Ok key ->
  fetch_soil_id NRCS BLM (clear_soil_id_cache w) (VDict d)
  = fetch_soil_id NRCS BLM (set_soil_id_cache_enabled w (VBool false)) (VDict d)
  /\ _USE_SOIL_ID_CACHE (clear_soil_id_cache w) = _USE_SOIL_ID_CACHE w.
Proof.
  intros Hk. split; [|reflexivity].
  apply fetch_soil_id_ext; try reflexivity.
  intros sid Hsid. rewrite get_field in Hsid. injection Hsid as <-.
  unfold cache_hit, clear_soil_id_cache, set_soil_id_cache_enabled.
  cbn [_USE_SOIL_ID_CACHE _soil_id_cache truthy andb]. rewrite Hk.
  destruct (_USE_SOIL_ID_CACHE w && truthy (field d "id")); [|reflexivity].
  cbn [bind]. now rewrite lookup_empty.
Qed.

End CacheFacts.

(** X12, witness: an answer stored for the sample site is returned in
    place of the query. *)
Lemma cache_then_fetch_witness :
  exists w', cache_soil_id sample_world (VStr "site-1") (VStr "stored") = Ok w'
             /\ fetch_soil_id sample_nrcs sample_blm w' sample_site
                = (Ok (VStr "stored"), []).
Proof.
  exact (cache_then_fetch sample_nrcs sample_blm sample_world (VStr "site-1")
           (VStr "stored") "site-1" sample_fields eq_refl eq_refl eq_refl eq_refl).
Defined.

(** X13, witness: the answer stored for [site-2] leaves the sample
    site, [site-1], to the query. *)
Lemma cache_other_site_witness :
  fetch_soil_id sample_nrcs sample_blm sample_cached_world sample_site
  = fetch_soil_id sample_nrcs sample_blm sample_world sample_site.
Proof.
  refine (cache_other_site sample_nrcs sample_blm sample_world sample_cached_world
            (VStr "site-2") sample_answer "site-2" "site-1" sample_fields
            _ eq_refl eq_refl _).
  - vm_compute. reflexivity.
  - discriminate.
Defined.

(** X14, witness: the cached world switched off. *)
Lemma cache_disabled_witness :
  fetch_soil_id sample_nrcs sample_blm
    (set_soil_id_cache_enabled sample_cached_world (VBool false))
    (VDict [("id", VStr "site-2")])
  = fetch_soil_id sample_nrcs sample_blm
      (clear_soil_id_cache (set_soil_id_cache_enabled sample_cached_world (VBool false)))
      (VDict [("id", VStr "site-2")]).
Proof.
  exact (proj2 (cache_disabled sample_nrcs sample_blm sample_cached_world (VBool false)
                  eq_refl) (VDict [("id", VStr "site-2")])).
Defined.

(** X15, witness: the cached world cleared. *)
Lemma cache_cleared_witness :
  fetch_soil_id sample_nrcs sample_blm (clear_soil_id_cache sample_cached_world)
    (VDict [("id", VStr "site-2")])
  = fetch_soil_id sample_nrcs sample_blm
      (set_soil_id_cache_enabled sample_cached_world (VBool false))
      (VDict [("id", VStr "site-2")]).
Proof.
  exact (proj1 (cache_cleared sample_nrcs sample_blm sample_cached_world
                  [("id", VStr "site-2")] "site-2" eq_refl)).
Defined.

(** ** The entries handed to the soil matching query *)

Lemma depth_dependent_data_no_keys (table : lab_table) (ms : list value) :
  forallb (fun m => has_depth_interval m && key_hashable m) ms = true ->
  depth_dependent_data table [] ms = Ok [].
Proof.
  induction ms as [|m ms IH]; [reflexivity|].
  cbn [forallb depth_dependent_data]. intros H. apply andb_true_iff in H as [Hm Hms].
  apply andb_true_iff in Hm as [Hd Hh].
  rewrite (depth_key_ok m Hd). cbn [bind]. rewrite (key_in_ok [] m Hh).
  cbn [bind visible_measurement existsb negb]. now apply IH.
Qed.

Section NoVisibleIntervals.

Variable NRCS : list (Z * Z).
Variable BLM : list (Z * Z).

(** X16: for a site without visible intervals (no preset, no custom
    interval) that passes the cache and the coordinate check, the query
    is made with an empty [depthDependentData]: no measurement of the
    site is handed over. *)
Theorem no_visible_intervals_no_data (w : world) (d : list (string * value))
    (ms : list value) :
  cache_hit w (field d "id") = Ok None ->
  truthy (field d "latitude") = true -> truthy (field d "longitude") = true ->
  get_visible_intervals NRCS BLM (VDict d) = Ok [] ->
  site_measurements (VDict d) = Some ms ->
  forallb (fun m => has_depth_interval m && key_hashable m) ms = true ->
  exists slope cracks,
    snd (fetch_soil_id NRCS BLM w (VDict d))
    = [VDict [("latitude", field d "latitude");
              ("longitude", field d "longitude");
              ("data", VDict [("slope", slope);
                              ("surfaceCracks", cracks);
                              ("depthDependentData", VList [])])]].
Proof.
  intros Hc Hlat Hlon Hvis Hms Hmok.
  destruct (site_measurements_get d ms Hms) as (sd & Hsd & Hdd).
  exists (field sd "slopeSteepnessDegree"),
    (match assoc "surfaceCracksSelect" sd with
     | Some v => v
     | None => VStr "NO_CRACKING"
     end).
  unfold fetch_soil_id, soil_id_request. rewrite get_field. cbn [bind].
  rewrite Hc. cbn [bind]. rewrite !get_field. cbn [bind]. rewrite Hlat, Hlon.
  cbn [negb orb]. rewrite Hsd. cbn [bind]. rewrite get_field. cbn [bind get].
  rewrite Hvis. cbn [bind mapM].
  change (match assoc "depthDependentData" sd with
          | Some v => v
          | None => VList []
          end) with
    (match get (VDict sd) "depthDependentData" (VList []) with
     | Ok v => v
     | Raise _ => VNone
     end).
  rewrite Hdd. cbn [py_iter bind].
  rewrite (depth_dependent_data_no_keys _ ms Hmok). reflexivity.
Qed.

End NoVisibleIntervals.

(** X16, witness: the sample site with the preset [NONE] and no
    intervals of its own. *)
Lemma no_visible_intervals_no_data_witness :
  exists slope cracks,
    snd (fetch_soil_id sample_nrcs sample_blm sample_world
           (VDict [("id", VStr "site-4");
                   ("latitude", VFloat (3 # 2));
                   ("longitude", VFloat (184 # 5));
                   ("soilData",
                    VDict [("depthIntervalPreset", VStr "NONE");
                           ("depthIntervals", VList []);
                           ("depthDependentData",
                            VList [VDict [depth_interval 0 5;
                                          ("texture", VStr "CLAY")]])])]))
    = [VDict [("latitude", VFloat (3 # 2));
              ("longitude", VFloat (184 # 5));
              ("data", VDict [("slope", slope);
                              ("surfaceCracks", cracks);
                              ("depthDependentData", VList [])])]].
Proof.
  exact (no_visible_intervals_no_data sample_nrcs sample_blm sample_world
           [("id", VStr "site-4");
            ("latitude", VFloat (3 # 2));
            ("longitude", VFloat (184 # 5));
            ("soilData",
             VDict [("depthIntervalPreset", VStr "NONE");
                    ("depthIntervals", VList []);
                    ("depthDependentData",
                     VList [VDict [depth_interval 0 5; ("texture", VStr "CLAY")]])])]
           [VDict [depth_interval 0 5; ("texture", VStr "CLAY")]]
           eq_refl eq_refl eq_refl eq_refl eq_refl eq_refl).
Defined.

(** X17: the entry built for a measurement has no other keys than
    [depthInterval], [texture], [rockFragmentVolume] and [colorLAB],
    each at most once: the colour channels and every other field of the
    measurement are left behind. *)
Theorem depth_entry_keys (table : lab_table) (d : list (string * value)) :
  measurement_ok (VDict d) = true ->
  exists fields,
    depth_entry table (VDict d) = Ok (VDict fields)
    /\ NoDup (map fst fields)
    /\ forall k, In k (map fst fields) ->
                 In k ["depthInterval"; "texture"; "rockFragmentVolume"; "colorLAB"].
Proof.
  intros Hok. exists (entry_fields table d). split; [now apply depth_entry_eq|].
  unfold entry_fields.
  destruct (truthy (field d "texture")), (truthy (field d "rockFragmentVolume")),
    (colour_lab table d); cbn [app map fst];
    (split; [apply (bool_decide_unpack _); vm_compute; exact I
            | intros k Hk; cbn [In] in *; intuition]).
Qed.

(** X17, witness: the last measurement of the sample site. *)
Lemma depth_entry_keys_witness :
  exists fields,
    depth_entry sample_table
      (VDict [depth_interval 5 15; ("texture", VStr "LOAM"); ("colorHue", VInt 35);
              ("colorValue", VInt 4); ("colorChroma", VInt 2)]) = Ok (VDict fields)
    /\ NoDup (map fst fields)
    /\ forall k, In k (map fst fields) ->
                 In k ["depthInterval"; "texture"; "rockFragmentVolume"; "colorLAB"].
Proof.
  exact (depth_entry_keys sample_table
           [depth_interval 5 15; ("texture", VStr "LOAM"); ("colorHue", VInt 35);
            ("colorValue", VInt 4); ("colorChroma", VInt 2)] eq_refl).
Defined.

Lemma py_round_not_none (v : value) (z : Z) : py_round v = Ok z -> is_none v = false.
Proof. destruct v; try discriminate; reflexivity. Qed.

(** X18: a measurement with a chromatic colour whose hue is outside
    [[-100, 100]] and does not round to a family boundary makes the
    construction of its entry raise [IndexError], and with it the loop
    over the measurements when the measurement is visible. *)
Theorem depth_entry_hue_out_of_range (table : lab_table) (d : list (string * value))
    (q : Q) (vz cz : Z) :
  has_depth_interval (VDict d) = true -> table_empty table = false ->
  num_of (field d "colorHue") = Some q ->
  (100 < q)%Q \/ (q < -100)%Q -> substep_of q <> 0 ->
  py_round (field d "colorValue") = Ok vz ->
  py_round (field d "colorChroma") = Ok cz -> cz <> 0 ->
  depth_entry table (VDict d) = Raise IndexError
  /\ forall keys rest,
       key_hashable (VDict d) = true -> visible_measurement keys (VDict d) = true ->
       depth_dependent_data table keys (VDict d :: rest) = Raise IndexError.
Proof.
  intros Hd Ht Hq Hout Hs Hv Hc Hz.
  assert (He : depth_entry table (VDict d) = Raise IndexError).
  { unfold depth_entry.
    pose proof (depth_key_ok (VDict d) Hd) as Hkey. unfold depth_key in Hkey.
    destruct (get (VDict d) "depthInterval" (VDict [])) as [di|]; [|discriminate Hkey].
    cbn [bind] in *.
    destruct (get di "start" VNone) as [st|]; [|discriminate Hkey]. cbn [bind] in *.
    destruct (get di "end" VNone) as [en|]; [|discriminate Hkey]. cbn [bind] in *.
    rewrite !get_field. cbn [bind].
    assert (Hh : is_none (field d "colorHue") = false).
    { destruct (field d "colorHue"); try discriminate Hq; reflexivity. }
    rewrite Hh, (py_round_not_none _ _ Hv), (py_round_not_none _ _ Hc).
    cbn [negb andb].
    now rewrite (proj2 (proj1 (hue_out_of_range_cases _ q Hq Hout) Hs)
                   table _ _ vz cz Ht Hv Hc Hz). }
  split; [exact He|]. intros keys rest Hh Hvis.
  cbn [depth_dependent_data]. rewrite (depth_key_ok _ Hd). cbn [bind].
  rewrite (key_in_ok keys _ Hh), Hvis. cbn [bind negb]. now rewrite He.
Qed.

(** X18, witness: a measurement with hue 105. *)
Lemma depth_entry_hue_out_of_range_witness :
  depth_entry sample_table
    (VDict [depth_interval 0 5; ("colorHue", VInt 105); ("colorValue", VInt 5);
            ("colorChroma", VInt 1)]) = Raise IndexError.
Proof.
  refine (proj1 (depth_entry_hue_out_of_range sample_table
                   [depth_interval 0 5; ("colorHue", VInt 105); ("colorValue", VInt 5);
                    ("colorChroma", VInt 1)] (inject_Z 105) 5 1
                   eq_refl _ eq_refl (or_introl _) _ eq_refl eq_refl _)).
  - vm_compute. reflexivity.
  - reflexivity.
  - vm_compute. discriminate.
  - discriminate.
Defined.

(** ** The notes of a site *)

Section NotesFacts.

Variable execute : value -> value * value.
Variable site_id page_size : value.

Lemma notes_loop_serves (after : value) (pages : list (list value)) :
  serves execute site_id page_size after pages ->
  forall fuel notes,
    (length pages <= fuel)%nat ->
    fst (notes_loop fuel execute site_id page_size after notes)
    = Some (Returned (notes ++ concat pages))
    /\ length (snd (notes_loop fuel execute site_id page_size after notes))
       = length pages.
Proof.
  induction 1 as [after errors data nodes Hx He Hp
                 | after errors data nodes cursor pages Hx He Hp Hs IH];
    intros fuel notes Hf.
  - destruct fuel as [|fuel]; [cbn in Hf; lia|].
    cbn [notes_loop]. rewrite Hx. cbn [fst snd]. rewrite He, Hp.
    cbn [fst snd concat length]. now rewrite app_nil_r.
  - destruct fuel as [|fuel]; [cbn in Hf; lia|].
    cbn [notes_loop]. rewrite Hx. cbn [fst snd]. rewrite He, Hp. cbn [fst snd].
    cbn [length] in Hf.
    destruct (IH fuel (notes ++ nodes) ltac:(lia)) as [Hr Hl].
    rewrite Hr. cbn [concat length]. rewrite Hl. now rewrite <- app_assoc.
Qed.

(** X19: when the executor serves the notes in pages, following the
    cursors from [None], [fetch_all_notes_for_site] returns the nodes
    of all the pages, in their order, after one query for each page. *)
Theorem fetch_all_notes_pages (pages : list (list value)) (fuel : nat) :
  serves execute site_id page_size VNone pages ->
  (length pages <= fuel)%nat ->
  fst (fetch_all_notes_for_site fuel execute site_id page_size)
  = Some (Returned (concat pages))
  /\ length (snd (fetch_all_notes_for_site fuel execute site_id page_size))
     = length pages.
Proof.
  intros Hs Hf. exact (notes_loop_serves VNone pages Hs fuel [] Hf).
Qed.

Lemma notes_loop_fails (after : value) (n : nat) (f : failure) :
  fails_at execute site_id page_size after n f ->
  forall fuel notes,
    (n <= fuel)%nat ->
    fst (notes_loop fuel execute site_id page_size after notes) = Some (Failed f)
    /\ length (snd (notes_loop fuel execute site_id page_size after notes)) = n.
Proof.
  induction 1 as [after errors data Hx He
                 | after errors data f Hx He Hp
                 | after errors data nodes cursor n f Hx He Hp Hs IH];
    intros fuel notes Hf.
  - destruct fuel as [|fuel]; [lia|].
    cbn [notes_loop]. rewrite Hx. cbn [fst snd]. rewrite He. split; reflexivity.
  - destruct fuel as [|fuel]; [lia|].
    cbn [notes_loop]. rewrite Hx. cbn [fst snd]. rewrite He, Hp. split; reflexivity.
  - destruct fuel as [|fuel]; [lia|].
    cbn [notes_loop]. rewrite Hx. cbn [fst snd]. rewrite He, Hp. cbn [fst snd].
    destruct (IH fuel (notes ++ nodes) ltac:(lia)) as [Hr Hl].
    rewrite Hr. cbn [length]. now rewrite Hl.
Qed.

(** X20: when an answer of the executor reports errors, or cannot be
    read as a page, [fetch_all_notes_for_site] raises at that answer
    ([RuntimeError] with the errors reported, in the first case) and
    makes no further query: the notes of the pages before are not
    returned. *)
Theorem fetch_all_notes_failure (n fuel : nat) (f : failure) :
  fails_at execute site_id page_size VNone n f ->
  (n <= fuel)%nat ->
  fst (fetch_all_notes_for_site fuel execute site_id page_size) = Some (Failed f)
  /\ length (snd (fetch_all_notes_for_site fuel execute site_id page_size)) = n.
Proof.
  intros Hs Hf. exact (notes_loop_fails VNone n f Hs fuel [] Hf).
Qed.

End NotesFacts.

(** X19, witness: three notes in two pages. *)
Lemma fetch_all_notes_pages_witness :
  fst (fetch_all_notes_for_site 5 sample_notes_execute (VStr "site-1") (VInt 2))
  = Some (Returned [VStr "note 1"; VStr "note 2"; VStr "note 3"]).
Proof.
  refine (proj1 (fetch_all_notes_pages sample_notes_execute (VStr "site-1") (VInt 2)
                   [[VStr "note 1"; VStr "note 2"]; [VStr "note 3"]] 5 _ _)).
  - eapply serves_next; [reflexivity | reflexivity | reflexivity |].
    eapply serves_last; reflexivity.
  - cbn. lia.
Defined.

(** X20, witness: the second answer reports errors. *)
Lemma fetch_all_notes_failure_witness :
  fst (fetch_all_notes_for_site 5 sample_failing_execute (VStr "site-1") (VInt 2))
  = Some (Failed (Py (RuntimeError (VList [VStr "not allowed"])))).
Proof.
  refine (proj1 (fetch_all_notes_failure sample_failing_execute (VStr "site-1") (VInt 2)
                   2 5 _ _ _)).
  - eapply fails_later; [reflexivity | reflexivity | reflexivity |].
    eapply fails_errors; reflexivity.
  - lia.
Defined.
